(** * finetune_model.py: a shallow embedding of the LoRA fine-tuning pipeline

    The development follows [src/ai_models_training/finetune_model.py]
    function by function.  Python dictionaries are finite maps ([gmap]),
    the module-level configuration dictionaries are passed explicitly to the
    functions that read them, the filesystem is an association list whose
    order is the enumeration order of the directory entries, and every
    function that prints, touches the filesystem or may raise runs in a small
    state-and-exception monad. *)

From Stdlib Require Import Ascii String.
From stdpp Require Import gmap strings list fin_maps pretty.


(** ** Strings *)

Definition nl : string := String "010"%char EmptyString.

Module Str.

(** [s.startswith(p)] *)
Fixpoint startswith (p s : string) : bool :=
  match p, s with
  | EmptyString, _ => true
  | String a p', String b s' => if Ascii.eqb a b then startswith p' s' else false
  | String _ _, EmptyString => false
  end.

(** [s.endswith(p)], by comparing the reversed strings. *)
Definition endswith (p s : string) : bool :=
  startswith (String.rev p) (String.rev s).

(** [p in s] *)
Fixpoint contains (p s : string) : bool :=
  startswith p s ||
  match s with
  | EmptyString => false
  | String _ s' => contains p s'
  end.

(** [s.split(sep)] for a one-character separator: the fields of [s]
    between occurrences of [sep]; a string without separator is one
    field, the empty string included. *)
Fixpoint split_go (sep : ascii) (cur : string) (s : string) : list string :=
  match s with
  | EmptyString => [String.rev cur]
  | String c s' =>
      if Ascii.eqb c sep
      then String.rev cur :: split_go sep EmptyString s'
      else split_go sep (String c cur) s'
  end.

Definition split (sep : ascii) (s : string) : list string :=
  split_go sep EmptyString s.

(** [s.split("\n")] *)
Definition lines (s : string) : list string := split "010"%char s.

(** [s[len(p):]] when [s] starts with [p]. *)
Fixpoint strip_prefix (p s : string) : option string :=
  match p, s with
  | EmptyString, _ => Some s
  | String a p', String b s' =>
      if Ascii.eqb a b then strip_prefix p' s' else None
  | String _ _, EmptyString => None
  end.

(** [c * n] for a one-character string. *)
Fixpoint replicate (n : nat) (c : ascii) : string :=
  match n with
  | O => EmptyString
  | S n' => String c (replicate n' c)
  end.

(** [s.lower()] on ASCII letters.  The script compares the result with
    [y], which only [y] and [Y] are mapped to. *)
Definition lower_ascii (c : ascii) : ascii :=
  let n := nat_of_ascii c in
  if (65 <=? n)%nat && (n <=? 90)%nat then ascii_of_nat (n + 32) else c.

Fixpoint lower (s : string) : string :=
  match s with
  | EmptyString => EmptyString
  | String c s' => String (lower_ascii c) (lower s')
  end.

(** [s.upper()] for a string of ASCII characters: the letters [a] to [z]
    are mapped to [A] to [Z], every other character stays. *)
Definition upper_ascii (c : ascii) : ascii :=
  let n := nat_of_ascii c in
  if (97 <=? n)%nat && (n <=? 122)%nat then ascii_of_nat (n - 32) else c.

Fixpoint upper (s : string) : string :=
  match s with
  | EmptyString => EmptyString
  | String c s' => String (upper_ascii c) (upper s')
  end.

(** Whether every character of [s] is an ASCII character. *)
Fixpoint is_ascii (s : string) : bool :=
  match s with
  | EmptyString => true
  | String c s' => (nat_of_ascii c <? 128)%nat && is_ascii s'
  end.

(** [sep.join(l)] *)
Fixpoint join (sep : string) (l : list string) : string :=
  match l with
  | [] => EmptyString
  | [x] => x
  | x :: l' => x +:+ sep +:+ join sep l'
  end.

End Str.

(** ** Python values held by a record of the training corpus

    A line of a [.jsonl] file decodes to a dictionary from field names to
    JSON scalars.  [truthy] is Python's truth test, [py_str] is [str()],
    which is what an f-string applies to an interpolated value. *)

Inductive pyval : Type :=
  | PNone
  | PStr (s : string)
  | PInt (z : Z)
  | PBool (b : bool).

Definition truthy (v : pyval) : bool :=
  match v with
  | PNone => false
  | PStr s => negb (String.eqb s "")
  | PInt z => negb (z =? 0)%Z
  | PBool b => b
  end.

Definition py_str (v : pyval) : string :=
  match v with
  | PNone => "None"
  | PStr s => s
  | PInt z => pretty z
  | PBool true => "True"
  | PBool false => "False"
  end.

Abbreviation example := (gmap string pyval).

(** [d.get(k, default)] *)
Definition dict_get {V} (d : gmap string V) (k : string) (default : V) : V :=
  match d !! k with
  | Some v => v
  | None => default
  end.

(** ** Prompt formatting *)

Definition HDR_INSTRUCTION : string := "### Instruction:".
Definition HDR_INPUT : string := "### Input:".
Definition HDR_RESPONSE : string := "### Response:".

Definition prompt_of (ex : example) : string :=
  let instruction := dict_get ex "instruction" (PStr "") in
  let input_text := dict_get ex "input" (PStr "") in
  let output_text := dict_get ex "output" (PStr "") in
  if truthy input_text then
    HDR_INSTRUCTION +:+ nl +:+ py_str instruction +:+ nl +:+ nl +:+
    HDR_INPUT +:+ nl +:+ py_str input_text +:+ nl +:+ nl +:+
    HDR_RESPONSE +:+ nl +:+ py_str output_text
  else
    HDR_INSTRUCTION +:+ nl +:+ py_str instruction +:+ nl +:+ nl +:+
    HDR_RESPONSE +:+ nl +:+ py_str output_text.

Definition format_instruction (ex : example) : example :=
  {[ "text" := PStr (prompt_of ex) ]}.

(** The section headers a consumer finds in a formatted text: the lines
    that are one of the three header lines, in the order they occur. *)

Inductive header : Type := HInstruction | HInput | HResponse.

Definition header_of_line (l : string) : option header :=
  if String.eqb l HDR_INSTRUCTION then Some HInstruction
  else if String.eqb l HDR_INPUT then Some HInput
  else if String.eqb l HDR_RESPONSE then Some HResponse
  else None.

Definition section_headers (text : string) : list header :=
  omap header_of_line (Str.lines text).

Definition text_of (fe : example) : string :=
  py_str (dict_get fe "text" (PStr "")).

(** ** Paths

    A [pathlib.Path] is kept as its normal form: components separated by
    single slashes, without empty or [.] components.  [Path] is the
    constructor applied to a raw string, [p // name] is [p / name] for a
    one-component [name], [path_name] is [Path(p).name]. *)

Abbreviation path := string.

Definition path_components (p : string) : list string :=
  List.filter (fun c => negb (String.eqb c "") && negb (String.eqb c "."))
              (Str.split "/"%char p).

Definition Path (p : string) : path :=
  let body := Str.join "/" (path_components p) in
  if Str.startswith "/" p then "/" +:+ body
  else if String.eqb body "" then "." else body.

Definition path_join (p : path) (name : string) : path :=
  if String.eqb p "." then name
  else if String.eqb p "/" then "/" +:+ name
  else p +:+ "/" +:+ name.

Infix "//" := path_join (at level 40, left associativity).

Definition path_name (p : string) : string :=
  List.last (path_components p) "".

(** ** Clock

    [datetime.now()] reads a clock of microsecond resolution; the three
    [strftime] formats of the script and [isoformat] are written out with
    fixed-width decimal fields. *)

Record datetime : Type := mkDatetime {
  year : N; month : N; day : N;
  hour : N; minute : N; second : N;
  microsecond : N
}.

Definition valid_datetime (d : datetime) : Prop :=
  (year d < 10000 ∧ month d < 100 ∧ day d < 100 ∧
   hour d < 100 ∧ minute d < 100 ∧ second d < 100 ∧
   microsecond d < 1000000)%N.

Definition digit (n : N) : ascii := ascii_of_N (48 + n mod 10).

Definition pad2 (n : N) : string :=
  String (digit (n / 10)) (String (digit n) EmptyString).

Definition pad4 (n : N) : string := pad2 (n / 100) +:+ pad2 (n mod 100).

Definition pad6 (n : N) : string :=
  pad2 (n / 10000) +:+ pad2 (n / 100 mod 100) +:+ pad2 (n mod 100).

(** [strftime("%Y-%m-%d_%H-%M-%S")] *)
Definition strftime_file (d : datetime) : string :=
  pad4 (year d) +:+ "-" +:+ pad2 (month d) +:+ "-" +:+ pad2 (day d) +:+ "_" +:+
  pad2 (hour d) +:+ "-" +:+ pad2 (minute d) +:+ "-" +:+ pad2 (second d).

(** [strftime("%Y-%m-%d %H:%M:%S")] *)
Definition strftime_human (d : datetime) : string :=
  pad4 (year d) +:+ "-" +:+ pad2 (month d) +:+ "-" +:+ pad2 (day d) +:+ " " +:+
  pad2 (hour d) +:+ ":" +:+ pad2 (minute d) +:+ ":" +:+ pad2 (second d).

(** [strftime("%d.%m.%Y")] *)
Definition strftime_date (d : datetime) : string :=
  pad2 (day d) +:+ "." +:+ pad2 (month d) +:+ "." +:+ pad4 (year d).

(** [isoformat()] *)
Definition isoformat (d : datetime) : string :=
  pad4 (year d) +:+ "-" +:+ pad2 (month d) +:+ "-" +:+ pad2 (day d) +:+ "T" +:+
  pad2 (hour d) +:+ ":" +:+ pad2 (minute d) +:+ ":" +:+ pad2 (second d) +:+
  (if N.eqb (microsecond d) 0 then "" else "." +:+ pad6 (microsecond d)).

(** The wall-clock second of a reading: what the file-name format keeps. *)
Definition to_second (d : datetime) : datetime :=
  mkDatetime (year d) (month d) (day d) (hour d) (minute d) (second d) 0.

(** ** Configuration

    [FINETUNING_CONFIG], [TRAINING_CONFIG] and [SYSTEM_CONFIG] are only read
    at keys their literals define, so they are records; the two floating
    point settings are kept as the text [str()] gives them.  [OUTPUT_CONFIG]
    is read at a key its literal does not define, so it stays a dictionary
    and every subscript goes through [subscript], which raises [KeyError]. *)

Record finetuning_config : Type := {
  method : string; version : string;
  lora_r : Z; lora_alpha : Z; lora_dropout : string;
  target_modules : list string
}.

Definition FINETUNING_CONFIG : finetuning_config := {|
  method := "LoRA"; version := "v1";
  lora_r := 16; lora_alpha := 32; lora_dropout := "0.05";
  target_modules := ["q_proj"; "k_proj"; "v_proj"; "o_proj"]
|}.

Record training_config : Type := {
  num_epochs : Z; batch_size : Z; gradient_accumulation_steps : Z;
  learning_rate : string; max_seq_length : nat;
  warmup_steps : Z; logging_steps : Z; save_steps : Z
}.

Definition TRAINING_CONFIG : training_config := {|
  num_epochs := 3; batch_size := 4; gradient_accumulation_steps := 4;
  learning_rate := "0.0002"; max_seq_length := 2048;
  warmup_steps := 100; logging_steps := 10; save_steps := 100
|}.

Record system_config : Type := {
  gpu : string; vram : string; cuda_version : string; ram : string
}.

Definition SYSTEM_CONFIG : system_config := {|
  gpu := "NVIDIA RTX 4070 Mobile"; vram := "8GB";
  cuda_version := "12.0"; ram := "32GB"
|}.

Definition OUTPUT_CONFIG (SCRIPT_DIR : path) : gmap string path :=
  <[ "models_dir" := SCRIPT_DIR // "Models" ]>
  (<[ "training_data_dir" := SCRIPT_DIR // "training data" ]>
  (<[ "crash_reports_dir" := SCRIPT_DIR // "logs" ]> ∅)).

(** ** Exceptions *)

Inductive exn_class : Type :=
  | KeyError | OSError | ValueError | EOFError | RuntimeError
  | DatasetGenerationError.

Definition class_name (c : exn_class) : string :=
  match c with
  | KeyError => "KeyError"
  | OSError => "OSError"
  | ValueError => "ValueError"
  | EOFError => "EOFError"
  | RuntimeError => "RuntimeError"
  | DatasetGenerationError => "DatasetGenerationError"
  end.

(** [Exn c msg origin] is an instance of a subclass of [Exception]: [msg] is
    [str(e)] and [origin] the function whose frame raised it.  [SystemExit]
    and [KeyboardInterrupt] derive from [BaseException] only. *)
Inductive exn : Type :=
  | Exn (c : exn_class) (msg : string) (origin : string)
  | SystemExit (code : Z)
  | KeyboardInterrupt.

(** What the outside world can make an operation do instead of completing:
    raise an [Exception], or be interrupted by the operator (Ctrl-C). *)
Inductive failure : Type :=
  | Fails (c : exn_class) (msg : string)
  | Interrupted.

Definition exn_of_failure (f : failure) (origin : string) : exn :=
  match f with
  | Fails c msg => Exn c msg origin
  | Interrupted => KeyboardInterrupt
  end.

(** [traceback.format_exc()] inside the handler of [e]. *)
Definition format_exc (e : exn) : string :=
  match e with
  | Exn c msg origin =>
      "Traceback (most recent call last):" +:+ nl +:+
      "  File finetune_model.py, in main" +:+ nl +:+
      "  File finetune_model.py, in " +:+ origin +:+ nl +:+
      class_name c +:+ ": " +:+ msg +:+ nl
  | SystemExit code => "SystemExit: " +:+ pretty code +:+ nl
  | KeyboardInterrupt => "KeyboardInterrupt" +:+ nl
  end.

(** ** The filesystem

    A flat store from normal-form paths to nodes.  The order of the list is
    the order in which the operating system enumerates entries, which is
    what [Path.glob] returns them in.  A corpus file is held as the records
    its lines decode to. *)

Inductive content : Type :=
  | Text (s : string)
  | Records (rs : list example)
  | Blob (tag : string).

Inductive node : Type :=
  | Dir
  | File (c : content).

Abbreviation filesystem := (list (path * node)).

Fixpoint fs_lookup (fs : filesystem) (p : path) : option node :=
  match fs with
  | [] => None
  | (q, n) :: fs' => if String.eqb q p then Some n else fs_lookup fs' p
  end.

(** Writing replaces an entry where it stands and appends a new one. *)
Fixpoint fs_set (fs : filesystem) (p : path) (n : node) : filesystem :=
  match fs with
  | [] => [(p, n)]
  | (q, m) :: fs' =>
      if String.eqb q p then (q, n) :: fs' else (q, m) :: fs_set fs' p n
  end.

Definition fs_exists (fs : filesystem) (p : path) : bool :=
  bool_decide (is_Some (fs_lookup fs p)).

(** [os.path.exists(s)] on a raw string: the empty string names nothing. *)
Definition os_path_exists (fs : filesystem) (s : string) : bool :=
  negb (String.eqb s "") && fs_exists fs (Path s).

(** The name of [p] as a direct child of directory [d]. *)
Definition child_name (d p : path) : option string :=
  let pre := if String.eqb d "." then ""
             else if String.eqb d "/" then "/" else d +:+ "/" in
  match Str.strip_prefix pre p with
  | Some name =>
      if String.eqb name "" || Str.contains "/" name then None else Some name
  | None => None
  end.

(** [list(d.glob("*" + suffix))]: the entries of directory [d] whose name
    ends with [suffix], as the store enumerates them. *)
Definition glob_suffix (fs : filesystem) (d : path) (suffix : string) : list path :=
  match fs_lookup fs d with
  | Some Dir =>
      omap (fun e : path * node =>
              match child_name d (fst e) with
              | Some name => if Str.endswith suffix name then Some (fst e) else None
              | None => None
              end) fs
  | _ => []
  end.

(** ** Operations on the outside world, events, and the environment

    Every call that leaves the script (the operating system, [torch],
    [datasets], [transformers], [peft]) is an operation.  An operation
    completes unless the environment makes it fail ([fault]): a refused
    permission, a file in the way of a directory, a full disk, an engine
    that runs out of memory or an operator who presses Ctrl-C are all
    injected that way, and the store itself checks no more than what the
    script asks it. *)

Inductive op : Type :=
  | Makedirs (p : path)
  | OpenW (p : path)
  | Copy2 (src dst : path)
  | Input
  | CudaDeviceName
  | LoadDataset (files : list path)
  | TokenizerFromPretrained (p : string)
  | ModelFromPretrained (p : string)
  | GetPeftModel
  | Tokenize
  | TrainerInit (output_dir : path)
  | Train
  | SaveModel (output_dir : path)
  | SaveTokenizer (output_dir : path).

Definition op_name (o : op) : string :=
  match o with
  | Makedirs _ => "os.makedirs"
  | OpenW _ => "open"
  | Copy2 _ _ => "shutil.copy2"
  | Input => "input"
  | CudaDeviceName => "torch.cuda.get_device_name"
  | LoadDataset _ => "load_dataset"
  | TokenizerFromPretrained _ => "AutoTokenizer.from_pretrained"
  | ModelFromPretrained _ => "AutoModelForCausalLM.from_pretrained"
  | GetPeftModel => "get_peft_model"
  | Tokenize => "tokenize_function"
  | TrainerInit _ => "Trainer"
  | Train => "trainer.train"
  | SaveModel _ => "save_pretrained"
  | SaveTokenizer _ => "save_pretrained"
  end.

(** What a run leaves behind to be observed, in order: a line printed, or
    an operation that completed. *)
Inductive event : Type :=
  | Out (line : string)
  | Did (o : op).

Inductive padding_side : Type := PadRight | PadLeft.

(** What the script uses of a pretrained tokenizer: the token ids it gives
    a text (special tokens included), its pad and end-of-sequence tokens,
    when it defines them, and its padding side. *)
Record tokenizer : Type := {
  tokenize : string → list Z;
  pad_token : option Z;
  eos_token : option Z;
  side : padding_side
}.

Record Env : Type := {
  argv : list string;
  SCRIPT_DIR : path;
  environ : gmap string string;
  sys_version : string;
  sys_platform : string;
  cuda_is_available : bool;
  cuda_device_name : string;
  operator_response : string;
  clock : nat → datetime;
  (** [fault o = Some f]: the operation [o] fails with [f] instead of
      completing. *)
  fault : op → option failure;
  pretrained_tokenizer : tokenizer;
  trainable_parameters : string;
  (** [s.upper()] for a string [s] that holds characters beyond ASCII,
      whose case mapping is Unicode's. *)
  unicode_upper : string → string
}.

(** [s.upper()] *)
Definition str_upper (env : Env) (s : string) : string :=
  if Str.is_ascii s then Str.upper s else unicode_upper env s.

Record State : Type := mkState {
  fs : filesystem;
  ticks : nat;
  trace : list event
}.

(** ** The monad: state, and a result that is a value or a raised exception *)

Inductive res (A : Type) : Type :=
  | Ok (a : A)
  | Raise (e : exn).
Arguments Ok {A} a.
Arguments Raise {A} e.

Definition M (A : Type) : Type := State → res A * State.

Definition ret {A} (a : A) : M A := fun st => (Ok a, st).

Definition bind {A B} (m : M A) (k : A → M B) : M B :=
  fun st =>
    match m st with
    | (Ok a, st') => k a st'
    | (Raise e, st') => (Raise e, st')
    end.

Definition raise {A} (e : exn) : M A := fun st => (Raise e, st).

(** [try: body except ...: handler], where [handler e = None] means that no
    clause matches [e]. *)
Definition try_except {A} (body : M A) (handler : exn → option (M A)) : M A :=
  fun st =>
    match body st with
    | (Ok a, st') => (Ok a, st')
    | (Raise e, st') =>
        match handler e with
        | Some h => h st'
        | None => (Raise e, st')
        end
    end.

Declare Scope py_scope.
Delimit Scope py_scope with py.
Notation "x <- m ;; k" := (bind m (fun x => k))
  (at level 100, m at next level, right associativity) : py_scope.
Notation "m ;;; k" := (bind m (fun _ => k))
  (at level 100, right associativity) : py_scope.
Local Open Scope py_scope.

Definition emit (e : event) : M unit :=
  fun st => (Ok tt, mkState (fs st) (ticks st) (trace st ++ [e])).

Definition print (line : string) : M unit := emit (Out line).

Definition sys_exit {A} (code : Z) : M A := raise (SystemExit code).

(** [d[k]] *)
Definition subscript (d : gmap string path) (k : string) (origin : string) : M path :=
  match d !! k with
  | Some v => ret v
  | None => raise (Exn KeyError ("'" +:+ k +:+ "'") origin)
  end.

(** [for x in l: f(x)] *)
Fixpoint for_each {A} (l : list A) (f : A → M unit) : M unit :=
  match l with
  | [] => ret tt
  | x :: l' => f x ;;; for_each l' f
  end.

(** [p.exists()] *)
Definition path_exists (p : path) : M bool :=
  fun st => (Ok (fs_exists (fs st) p), st).

(** [os.path.exists(s)] *)
Definition os_path_exists_m (s : string) : M bool :=
  fun st => (Ok (os_path_exists (fs st) s), st).

(** [list(d.glob("*" + suffix))] *)
Definition glob (d : path) (suffix : string) : M (list path) :=
  fun st => (Ok (glob_suffix (fs st) d suffix), st).

Section Primitives.
Context (env : Env).

(** A completed operation with no effect on the store. *)
Definition perform (o : op) : M unit :=
  match fault env o with
  | Some f => raise (exn_of_failure f (op_name o))
  | None => emit (Did o)
  end.

Definition now : M datetime :=
  fun st => (Ok (clock env (ticks st)), mkState (fs st) (S (ticks st)) (trace st)).

(** [os.makedirs(p, exist_ok=True)] *)
Definition os_makedirs (p : path) : M unit :=
  match fault env (Makedirs p) with
  | Some f => raise (exn_of_failure f "os.makedirs")
  | None => fun st =>
      let fs' := if fs_exists (fs st) p then fs st else fs_set (fs st) p Dir in
      (Ok tt, mkState fs' (ticks st) (trace st ++ [Did (Makedirs p)]))
  end.

(** [open(p, "w")]: the file is created, or truncated, when it is opened. *)
Definition open_w (p : path) : M unit :=
  match fault env (OpenW p) with
  | Some f => raise (exn_of_failure f "open")
  | None => fun st =>
      (Ok tt, mkState (fs_set (fs st) p (File (Text ""))) (ticks st)
                      (trace st ++ [Did (OpenW p)]))
  end.

(** What the [f.write] and [json.dump] calls of one [with] block leave in
    the file opened at [p]. *)
Definition f_write (p : path) (c : content) : M unit :=
  fun st => (Ok tt, mkState (fs_set (fs st) p (File c)) (ticks st) (trace st)).

(** [shutil.copy2(src, dst)] *)
Definition shutil_copy2 (src dst : path) : M unit :=
  match fault env (Copy2 src dst) with
  | Some f => raise (exn_of_failure f "shutil.copy2")
  | None => fun st =>
      match fs_lookup (fs st) src with
      | Some (File c) =>
          (Ok tt, mkState (fs_set (fs st) dst (File c)) (ticks st)
                          (trace st ++ [Did (Copy2 src dst)]))
      | _ => (Raise (Exn OSError ("cannot copy " +:+ src) "shutil.copy2"), st)
      end
  end.

(** [input(prompt)]: the prompt is shown, then a line is read. *)
Definition input (prompt : string) : M string :=
  print prompt ;;;
  perform Input ;;;
  ret (operator_response env).

End Primitives.

(** ** Utilities *)

Definition line80 : string := Str.replicate 80 "="%char.

Definition print_header (text : string) : M unit :=
  print (nl +:+ line80) ;;;
  print ("  " +:+ text) ;;;
  print (line80 +:+ nl).

Definition print_info (text : string) : M unit := print ("[INFO] " +:+ text).
Definition print_success (text : string) : M unit := print ("[SUCCESS] " +:+ text).
Definition print_error (text : string) : M unit := print ("[ERROR] " +:+ text).
Definition print_warning (text : string) : M unit := print ("[WARNING] " +:+ text).

Definition py_bool (b : bool) : string := if b then "True" else "False".

(** [type(error).__name__] and [str(error)] *)
Definition exn_type_name (e : exn) : string :=
  match e with
  | Exn c _ _ => class_name c
  | SystemExit _ => "SystemExit"
  | KeyboardInterrupt => "KeyboardInterrupt"
  end.

Definition exn_str (e : exn) : string :=
  match e with
  | Exn _ msg _ => msg
  | SystemExit code => pretty code
  | KeyboardInterrupt => ""
  end.

Record metadata_config : Type := {
  finetuned_by : string; organization : string; role : string
}.

Section Pipeline.
Context (cfg : gmap string path) (env : Env).

Definition METADATA_CONFIG : metadata_config := {|
  finetuned_by := dict_get (environ env) "DEVELOPER_NAME" "Unknown Developer";
  organization := dict_get (environ env) "ORGANIZATION" "Unknown Organization";
  role := dict_get (environ env) "ROLE" "Unknown Role"
|}.

Definition crash_report_name (timestamp : string) : string :=
  "crash_report_finetune_model_" +:+ timestamp +:+ ".log".

Definition crash_report_text (stamp : datetime) (error : exn)
    (error_context : string) : string :=
  line80 +:+ nl +:+
  "FINE-TUNING SCRIPT CRASH REPORT" +:+ nl +:+
  line80 +:+ nl +:+ nl +:+
  "Timestamp: " +:+ strftime_human stamp +:+ nl +:+
  "Script: finetune_model.py" +:+ nl +:+
  "Python: " +:+ sys_version env +:+ nl +:+
  "Platform: " +:+ sys_platform env +:+ nl +:+ nl +:+
  "Configuration:" +:+ nl +:+
  "  Method: " +:+ method FINETUNING_CONFIG +:+ nl +:+
  "  Version: " +:+ version FINETUNING_CONFIG +:+ nl +:+
  "  User: " +:+ finetuned_by METADATA_CONFIG +:+ nl +:+
  "  Organization: " +:+ organization METADATA_CONFIG +:+ nl +:+
  "  CUDA Available: " +:+ py_bool (cuda_is_available env) +:+ nl +:+ nl +:+
  (if String.eqb error_context "" then ""
   else "Context: " +:+ error_context +:+ nl +:+ nl) +:+
  "Error:" +:+ nl +:+
  exn_type_name error +:+ ": " +:+ exn_str error +:+ nl +:+ nl +:+
  "Traceback:" +:+ nl +:+
  format_exc error +:+
  nl +:+ line80 +:+ nl.

Definition write_crash_report (error : exn) (error_context : string) : M path :=
  d <- subscript cfg "crash_reports_dir" "write_crash_report" ;;
  os_makedirs env d ;;;
  t <- now env ;;
  let timestamp := strftime_file t in
  let report_name := crash_report_name timestamp in
  d <- subscript cfg "crash_reports_dir" "write_crash_report" ;;
  let report_path := d // report_name in
  open_w env report_path ;;;
  stamp <- now env ;;
  f_write report_path (Text (crash_report_text stamp error error_context)) ;;;
  print_error ("Crash report saved: " +:+ report_path) ;;;
  ret report_path.

Definition check_system : M unit :=
  print_header "System Check" ;;;
  print_info ("GPU: " +:+ gpu SYSTEM_CONFIG +:+ ", " +:+ vram SYSTEM_CONFIG) ;;;
  print_info ("CUDA Available: " +:+ py_bool (cuda_is_available env)) ;;;
  (if cuda_is_available env then
     perform env CudaDeviceName ;;;
     print_info ("CUDA Device: " +:+ cuda_device_name env)
   else ret tt) ;;;
  d <- subscript cfg "models_dir" "check_system" ;;
  os_makedirs env d ;;;
  d <- subscript cfg "documentation_dir" "check_system" ;;
  os_makedirs env d ;;;
  print_success "Output directories ready".

Definition missing_license_text (stamp : datetime)
    (source_model_path : string) (output_dir : path) : string :=
  line80 +:+ nl +:+
  "MISSING LICENSE WARNING" +:+ nl +:+
  line80 +:+ nl +:+ nl +:+
  "Timestamp: " +:+ strftime_human stamp +:+ nl +:+
  "Source Model: " +:+ source_model_path +:+ nl +:+
  "Output Directory: " +:+ output_dir +:+ nl +:+
  nl +:+ "WARNING: No LICENSE file found in source model." +:+ nl +:+
  "This may indicate licensing compliance issues." +:+ nl +:+
  "Please verify the licensing terms before distribution." +:+ nl.

Definition copy_license_or_log (source_model_path : string)
    (output_dir : path) : M unit :=
  let source_license := Path source_model_path // "LICENSE" in
  found <- path_exists source_license ;;
  if (found : bool) then
    let dest_license := output_dir // "LICENSE" in
    shutil_copy2 env source_license dest_license ;;;
    print_success "Copied LICENSE to output"
  else
    d <- subscript cfg "crash_reports_dir" "copy_license_or_log" ;;
    os_makedirs env d ;;;
    t <- now env ;;
    let timestamp := strftime_file t in
    d <- subscript cfg "crash_reports_dir" "copy_license_or_log" ;;
    let log_path := d // ("missing_license_" +:+ timestamp +:+ ".log") in
    open_w env log_path ;;;
    stamp <- now env ;;
    f_write log_path
      (Text (missing_license_text stamp source_model_path output_dir)) ;;;
    print_warning ("No LICENSE found - logged to: " +:+ log_path).

End Pipeline.

(** ** Data preparation *)

Abbreviation dataset := (list example).

Record encoded : Type := {
  input_ids : list Z;
  attention_mask : list Z
}.

Inductive model : Type :=
  | BaseModel (p : string)
  | PeftModel (base : string) (r alpha : Z) (dropout : string)
              (targets : list string).

(** The records of the data files, file after file in the order given. *)
Fixpoint read_records (fs : filesystem) (files : list path) : option dataset :=
  match files with
  | [] => Some []
  | f :: files' =>
      match fs_lookup fs f, read_records fs files' with
      | Some (File (Records rs)), Some rest => Some (rs ++ rest)%list
      | _, _ => None
      end
  end.

(** The tokenizer called on a batch of texts,
    [tokenizer(texts, truncation=..., max_length=..., padding=...)].
    Truncation cuts an encoding down to its first [max_length] tokens
    (what it does for a tokenizer that adds no special token after the
    text).  Padding fills every encoding of the batch up to the longest of
    them ([Longest]) or up to [max_length] ([MaxLength]) with the pad
    token, on the tokenizer's padding side; asking for padding without a
    pad token raises. *)
Inductive padding_strategy : Type := DoNotPad | Longest | MaxLength.

Definition truncated (truncation : bool) (max_length : nat) (ids : list Z) : list Z :=
  if truncation then take max_length ids else ids.

Definition unpadded (ids : list Z) : encoded :=
  {| input_ids := ids; attention_mask := replicate (length ids) 1%Z |}.

Definition padded (s : padding_side) (pad : Z) (n : nat) (ids : list Z) : encoded :=
  let fill := n - length ids in
  match s with
  | PadRight =>
      {| input_ids := (ids ++ replicate fill pad)%list;
         attention_mask := (replicate (length ids) 1%Z ++ replicate fill 0%Z)%list |}
  | PadLeft =>
      {| input_ids := (replicate fill pad ++ ids)%list;
         attention_mask := (replicate fill 0%Z ++ replicate (length ids) 1%Z)%list |}
  end.

Definition tokenizer_call (tok : tokenizer) (texts : list string)
    (truncation : bool) (max_length : nat) (padding : padding_strategy)
    : res (list encoded) :=
  let idss := map (fun text => truncated truncation max_length (tokenize tok text))
                  texts in
  match padding with
  | DoNotPad => Ok (map unpadded idss)
  | Longest | MaxLength =>
      match pad_token tok with
      | None =>
          Raise (Exn ValueError
                   "Asking to pad but the tokenizer does not have a padding token"
                   "tokenize_function")
      | Some pad =>
          let n := match padding with
                   | MaxLength => max_length
                   | _ => max_list (map length idss)
                   end in
          Ok (map (padded (side tok) pad n) idss)
      end
  end.

(** The closure [tokenize_function] of [prepare_dataset], called on the
    texts of a batch. *)
Definition tokenize_function (tok : tokenizer) (texts : list string)
    : res (list encoded) :=
  tokenizer_call tok texts true (max_seq_length TRAINING_CONFIG) MaxLength.

(** [dataset.map(f, batched=True)]: [f] is called on successive batches of
    at most 1000 rows, the default [batch_size], and the results are put
    together in order; the first exception ends the map.  A dataset
    without rows gives no batch. *)
Definition DEFAULT_BATCH_SIZE : nat := 1000.

Fixpoint batches_go {A} (fuel : nat) (size : nat) (l : list A) : list (list A) :=
  match fuel, l with
  | S fuel', _ :: _ => take size l :: batches_go fuel' size (drop size l)
  | _, _ => []
  end.

Definition batches {A} (size : nat) (l : list A) : list (list A) :=
  batches_go (length l) size l.

Fixpoint map_batches {A B} (f : list A → res (list B)) (bs : list (list A))
    : res (list B) :=
  match bs with
  | [] => Ok []
  | b :: bs' =>
      match f b with
      | Raise e => Raise e
      | Ok r =>
          match map_batches f bs' with
          | Raise e => Raise e
          | Ok rs => Ok (r ++ rs)%list
          end
      end
  end.

Definition map_batched {A B} (f : list A → res (list B)) (l : list A)
    : res (list B) :=
  map_batches f (batches DEFAULT_BATCH_SIZE l).

(** The assignment [tokenizer.pad_token = tokenizer.eos_token], made when
    [tokenizer.pad_token is None]. *)
Definition with_pad_fallback (tok : tokenizer) : tokenizer :=
  match pad_token tok with
  | None => {| tokenize := tokenize tok; pad_token := eos_token tok;
               eos_token := eos_token tok; side := side tok |}
  | Some _ => tok
  end.

Definition lift {A} (r : res A) : M A := fun st => (r, st).

(** The store after [files] were saved into [output_dir]. *)
Definition save_fs (fs : filesystem) (output_dir : path)
    (files : list (string * content)) : filesystem :=
  foldl (fun acc f => fs_set acc (output_dir // fst f) (File (snd f)))
        (if fs_exists fs output_dir then fs else fs_set fs output_dir Dir)
        files.

Definition adapter_files : list (string * content) :=
  [("adapter_config.json", Text "peft adapter configuration");
   ("adapter_model.safetensors", Blob "adapter weights")].

Definition tokenizer_files : list (string * content) :=
  [("tokenizer_config.json", Text "tokenizer configuration");
   ("tokenizer.json", Blob "tokenizer vocabulary")].

(** JSON text as [json.dump] writes it (layout apart). *)
Definition dquote : string := String (ascii_of_nat 34) EmptyString.
Definition json_str (s : string) : string := dquote +:+ s +:+ dquote.
Definition json_key (k : string) : string := json_str k +:+ ": ".

Section Stages.
Context (cfg : gmap string path) (env : Env).

(** [load_dataset("json", data_files=files, split="train")]: the records
    of the files, file after file.  The JSON builder raises when a file
    cannot be read as records, and when the files together hold no record
    at all (no schema can be inferred). *)
Definition load_dataset (files : list path) : M dataset :=
  match fault env (LoadDataset files) with
  | Some f => raise (exn_of_failure f "load_dataset")
  | None => fun st =>
      match read_records (fs st) files with
      | None =>
          (Raise (Exn DatasetGenerationError
                    "An error occurred while generating the dataset" "load_dataset"),
           st)
      | Some rs =>
          if bool_decide (rs = [])
          then (Raise (Exn DatasetGenerationError
                         "An error occurred while generating the dataset"
                         "load_dataset"),
                st)
          else (Ok rs, mkState (fs st) (ticks st)
                               (trace st ++ [Did (LoadDataset files)]))
      end
  end.

Definition load_training_data (version : string) : M dataset :=
  print_header ("Loading Training Data - " +:+ version) ;;;
  d <- subscript cfg "training_data_dir" "load_training_data" ;;
  let data_dir := d // version in
  found <- path_exists data_dir ;;
  (if negb found then
     print_error ("Training data not found: " +:+ data_dir) ;;;
     sys_exit 1
   else ret tt) ;;;
  jsonl_files <- glob data_dir ".jsonl" ;;
  (if bool_decide (jsonl_files = []) then
     print_error ("No .jsonl files found in " +:+ data_dir) ;;;
     sys_exit 1
   else ret tt) ;;;
  print_info ("Found " +:+ pretty (length jsonl_files) +:+ " training file(s)") ;;;
  for_each jsonl_files
    (fun file => print_info ("  - " +:+ path_name file)) ;;;
  dataset <- load_dataset jsonl_files ;;
  print_success ("Loaded " +:+ pretty (length dataset) +:+ " training examples") ;;;
  ret dataset.

(** The first [dataset.map] formats every row and drops the columns the
    dataset had; the second names the column [text] in [remove_columns],
    which [map] checks before anything else, and a dataset without rows
    has no column [text]. *)
Definition prepare_dataset (dataset : dataset) (tok : tokenizer)
    : M (list encoded) :=
  print_header "Preparing Dataset" ;;;
  let dataset := map format_instruction dataset in
  (if bool_decide (dataset = []) then
     raise (Exn ValueError
              "Column to remove ['text'] not in the dataset. Current columns in the dataset: []"
              "map")
   else ret tt) ;;;
  perform env Tokenize ;;;
  tokenized_dataset <- lift (map_batched (tokenize_function tok)
                                         (map text_of dataset)) ;;
  print_success ("Dataset prepared: " +:+ pretty (length tokenized_dataset)
                 +:+ " examples") ;;;
  ret tokenized_dataset.

(** ** Model setup *)

Definition setup_model_and_tokenizer (model_path : string)
    : M (model * tokenizer) :=
  print_header "Loading Model and Tokenizer" ;;;
  perform env (TokenizerFromPretrained model_path) ;;;
  let tokenizer := with_pad_fallback (pretrained_tokenizer env) in
  perform env (ModelFromPretrained model_path) ;;;
  print_success ("Model loaded: " +:+ model_path) ;;;
  perform env GetPeftModel ;;;
  let model := PeftModel model_path (lora_r FINETUNING_CONFIG)
                 (lora_alpha FINETUNING_CONFIG) (lora_dropout FINETUNING_CONFIG)
                 (target_modules FINETUNING_CONFIG) in
  print (trainable_parameters env) ;;;
  print_success "LoRA adapters configured" ;;;
  ret (model, tokenizer).

(** ** Training *)

(** [save_pretrained(output_dir)]: the directory is created when it does
    not exist and the files are written into it. *)
Definition save_pretrained (o : op) (output_dir : path)
    (files : list (string * content)) : M unit :=
  match fault env o with
  | Some f => raise (exn_of_failure f "save_pretrained")
  | None => fun st =>
      (Ok tt, mkState (save_fs (fs st) output_dir files) (ticks st)
                      (trace st ++ [Did o]))
  end.

Definition finetuning_config_json (version : string) (date : datetime) : string :=
  "{" +:+ json_key "method" +:+ json_str (method FINETUNING_CONFIG) +:+
  ", " +:+ json_key "version" +:+ json_str version +:+
  ", " +:+ json_key "lora_config" +:+
    "{" +:+ json_key "r" +:+ pretty (lora_r FINETUNING_CONFIG) +:+
    ", " +:+ json_key "alpha" +:+ pretty (lora_alpha FINETUNING_CONFIG) +:+
    ", " +:+ json_key "dropout" +:+ lora_dropout FINETUNING_CONFIG +:+
    ", " +:+ json_key "target_modules" +:+
      "[" +:+ Str.join ", " (map json_str (target_modules FINETUNING_CONFIG)) +:+ "]}" +:+
  ", " +:+ json_key "training_config" +:+
    "{" +:+ json_key "num_epochs" +:+ pretty (num_epochs TRAINING_CONFIG) +:+
    ", " +:+ json_key "batch_size" +:+ pretty (batch_size TRAINING_CONFIG) +:+
    ", " +:+ json_key "gradient_accumulation_steps" +:+
      pretty (gradient_accumulation_steps TRAINING_CONFIG) +:+
    ", " +:+ json_key "learning_rate" +:+ learning_rate TRAINING_CONFIG +:+
    ", " +:+ json_key "max_seq_length" +:+ pretty (max_seq_length TRAINING_CONFIG) +:+
    ", " +:+ json_key "warmup_steps" +:+ pretty (warmup_steps TRAINING_CONFIG) +:+
    ", " +:+ json_key "logging_steps" +:+ pretty (logging_steps TRAINING_CONFIG) +:+
    ", " +:+ json_key "save_steps" +:+ pretty (save_steps TRAINING_CONFIG) +:+ "}" +:+
  ", " +:+ json_key "finetuned_date" +:+ json_str (isoformat date) +:+
  ", " +:+ json_key "finetuned_by" +:+ json_str (finetuned_by (METADATA_CONFIG env)) +:+
  ", " +:+ json_key "organization" +:+ json_str (organization (METADATA_CONFIG env)) +:+
  ", " +:+ json_key "role" +:+ json_str (role (METADATA_CONFIG env)) +:+
  ", " +:+ json_key "system" +:+
    "{" +:+ json_key "gpu" +:+ json_str (gpu SYSTEM_CONFIG) +:+
    ", " +:+ json_key "vram" +:+ json_str (vram SYSTEM_CONFIG) +:+
    ", " +:+ json_key "cuda_version" +:+ json_str (cuda_version SYSTEM_CONFIG) +:+
    ", " +:+ json_key "ram" +:+ json_str (ram SYSTEM_CONFIG) +:+ "}}".

End Stages.

Section Run.
Context (cfg : gmap string path) (env : Env).

Definition train_model (model : model) (tokenizer : tokenizer)
    (dataset : list encoded) (model_name version : string) : M path :=
  print_header "Fine-Tuning Model" ;;;
  let output_name := model_name +:+ "_ft_" +:+ version in
  d <- subscript cfg "models_dir" "train_model" ;;
  let output_dir := d // output_name in
  perform env (TrainerInit output_dir) ;;;
  print_info "Starting training..." ;;;
  perform env Train ;;;
  print_info "Saving model..." ;;;
  save_pretrained env (SaveModel output_dir) output_dir adapter_files ;;;
  save_pretrained env (SaveTokenizer output_dir) output_dir tokenizer_files ;;;
  let original_model_path :=
    if (1 <? length (argv env))%nat then Some (nth 1 (argv env) "") else None in
  match original_model_path with
  | Some p =>
      if negb (String.eqb p "") then copy_license_or_log cfg env p output_dir
      else ret tt
  | None => ret tt
  end ;;;
  let config_path := output_dir // "finetuning_config.json" in
  open_w env config_path ;;;
  date <- now env ;;
  f_write config_path (Text (finetuning_config_json env version date)) ;;;
  print_success ("Model saved: " +:+ output_dir) ;;;
  ret output_dir.

(** ** Documentation *)

Definition doc_text (model_name version : string) (dataset_size : nat)
    (today : datetime) : string :=
  let original_doc_ref := "[" +:+ model_name +:+ ".md](" +:+ model_name +:+ ".md)" in
  "# " +:+ model_name +:+ " - Fine-Tuned " +:+ str_upper env version +:+ nl +:+
  nl +:+
  "## Fine-Tuning Information" +:+ nl +:+
  "- **Changed by**: " +:+ finetuned_by (METADATA_CONFIG env) +:+ nl +:+
  "- **Organization**: " +:+ organization (METADATA_CONFIG env) +:+ nl +:+
  "- **Role**: " +:+ role (METADATA_CONFIG env) +:+ nl +:+
  "- **Date**: " +:+ strftime_date today +:+ nl +:+
  "- **Source Model**: " +:+ original_doc_ref +:+ nl +:+
  nl +:+
  "## Changes Made" +:+ nl +:+
  "- Applied LoRA (Low-Rank Adaptation) fine-tuning" +:+ nl +:+
  "- Training data: " +:+ pretty dataset_size +:+ " examples (" +:+ version +:+ ")" +:+ nl +:+
  "- Specialized for BigQuery SQL and web analytics queries" +:+ nl +:+
  "- Target modules: " +:+ Str.join ", " (target_modules FINETUNING_CONFIG) +:+ nl +:+
  nl +:+
  "## Fine-Tuning Details" +:+ nl +:+
  "- **Method**: " +:+ method FINETUNING_CONFIG +:+ nl +:+
  "- **Version**: " +:+ version +:+ nl +:+
  "- **LoRA Rank (r)**: " +:+ pretty (lora_r FINETUNING_CONFIG) +:+ nl +:+
  "- **LoRA Alpha**: " +:+ pretty (lora_alpha FINETUNING_CONFIG) +:+ nl +:+
  "- **Dropout**: " +:+ lora_dropout FINETUNING_CONFIG +:+ nl +:+
  "- **Epochs**: " +:+ pretty (num_epochs TRAINING_CONFIG) +:+ nl +:+
  "- **Learning Rate**: " +:+ learning_rate TRAINING_CONFIG +:+ nl +:+
  "- **Batch Size**: " +:+ pretty (batch_size TRAINING_CONFIG) +:+ nl +:+
  "- **Max Sequence Length**: " +:+ pretty (max_seq_length TRAINING_CONFIG) +:+ nl +:+
  nl +:+
  "## Training Data" +:+ nl +:+
  "- **Location**: `training data/" +:+ version +:+ "/`" +:+ nl +:+
  "- **Format**: JSONL (instruction, input, output)" +:+ nl +:+
  "- **Domain**: BigQuery SQL for web analytics" +:+ nl +:+
  "- **Examples**: " +:+ pretty dataset_size +:+ nl +:+
  nl +:+
  "## System Requirements" +:+ nl +:+
  "- **GPU**: Recommended for inference (can run on CPU)" +:+ nl +:+
  "- **VRAM**: 4-6GB for inference" +:+ nl +:+
  "- **RAM**: 16GB minimum" +:+ nl +:+
  nl +:+
  "## Performance Notes" +:+ nl +:+
  "- Specialized for BigQuery Standard SQL" +:+ nl +:+
  "- Improved understanding of web analytics schemas" +:+ nl +:+
  "- Better at generating aggregate queries and window functions" +:+ nl +:+
  "- Maintains general code generation capabilities" +:+ nl +:+
  nl +:+
  "## Next Steps" +:+ nl +:+
  "1. Test on validation queries" +:+ nl +:+
  "2. Quantize fine-tuned model for CPU deployment" +:+ nl +:+
  "3. Compare with base model performance" +:+ nl +:+
  "4. Iterate with additional training data (v2, v3, etc.)" +:+ nl.

Definition generate_documentation (model_name : string) (output_dir : path)
    (original_path : string) (version : string) (dataset_size : nat) : M unit :=
  print_header "Generating Documentation" ;;;
  today <- now env ;;
  let doc_content := doc_text model_name version dataset_size today in
  let doc_filename := model_name +:+ "_ft_" +:+ version +:+ ".md" in
  d <- subscript cfg "documentation_dir" "generate_documentation" ;;
  let doc_path := d // doc_filename in
  open_w env doc_path ;;;
  f_write doc_path (Text doc_content) ;;;
  print_success ("Documentation: " +:+ doc_path).

(** ** Main *)

(** U+2705, as its three UTF-8 bytes. *)
Definition check_mark : string :=
  String (ascii_of_nat 226) (String (ascii_of_nat 156)
    (String (ascii_of_nat 133) EmptyString)).

(** The body of the [try] statement of [main]. *)
Definition main_body : M unit :=
  print_header ("Fine-Tuning Script - " +:+ method FINETUNING_CONFIG) ;;;
  t <- now env ;;
  print_info (strftime_human t) ;;;
  (if negb (length (argv env) =? 2)%nat then
     print_error "Usage: python finetune_model.py <model_path>" ;;;
     print_info "Example: python finetune_model.py Models/qwen2.5-coder-1.5b-instruct" ;;;
     sys_exit 1
   else ret tt) ;;;
  let model_path := nth 1 (argv env) "" in
  found <- os_path_exists_m model_path ;;
  (if negb found then
     print_error ("Model not found: " +:+ model_path) ;;;
     sys_exit 1
   else ret tt) ;;;
  check_system cfg env ;;;
  (if negb (cuda_is_available env) then
     print_warning "CUDA not available. Fine-tuning will be very slow on CPU." ;;;
     response <- input env "Continue anyway? (y/n): " ;;
     if negb (String.eqb (Str.lower response) "y") then sys_exit 0 else ret tt
   else ret tt) ;;;
  let version := version FINETUNING_CONFIG in
  let model_name := path_name model_path in
  dataset <- load_training_data cfg env version ;;
  loaded <- setup_model_and_tokenizer env model_path ;;
  let model := fst loaded in
  let tokenizer := snd loaded in
  prepared_dataset <- prepare_dataset env dataset tokenizer ;;
  output_dir <- train_model model tokenizer prepared_dataset model_name version ;;
  generate_documentation model_name output_dir model_path version (length dataset) ;;;
  print_header ("Complete " +:+ check_mark) ;;;
  print_success ("Fine-tuned model: " +:+ output_dir) ;;;
  print_info "Next: Quantize the fine-tuned model for CPU deployment".



Definition error_context : string :=
  "Model: " +:+ (if (1 <? length (argv env))%nat then nth 1 (argv env) "" else "unknown").

(** The [except] clauses of [main], in order: [KeyboardInterrupt], then
    [Exception].  [SystemExit] matches neither. *)
Definition main_handler (e : exn) : option (M unit) :=
  match e with
  | KeyboardInterrupt =>
      Some (print_warning (nl +:+ "Interrupted by user") ;;; sys_exit 130)
  | Exn _ _ _ =>
      Some (print_error ("Failed: " +:+ exn_str e) ;;;
            write_crash_report cfg env e error_context ;;;
            sys_exit 1)
  | SystemExit _ => None
  end.

Definition main : M unit := try_except main_body main_handler.

End Run.

(** The process: [main()] under the module's own [OUTPUT_CONFIG], and the
    exit status the interpreter reports for the way [main] ends. *)
Definition exit_status (r : res unit) : Z :=
  match r with
  | Ok _ => 0
  | Raise (SystemExit code) => code
  | Raise KeyboardInterrupt => 130
  | Raise (Exn _ _ _) => 1
  end.

Definition run (env : Env) (st : State) : Z * State :=
  let '(r, st') := main (OUTPUT_CONFIG (SCRIPT_DIR env)) env st in
  (exit_status r, st').

(** ** Observations on a trace *)

(** The events of the no-accelerator prompt and of every stage after the
    system check, the closing [Complete] header included. *)
Definition beyond_system_check (e : event) : bool :=
  match e with
  | Did Input | Did (LoadDataset _) | Did (TokenizerFromPretrained _)
  | Did (ModelFromPretrained _) | Did GetPeftModel | Did Tokenize
  | Did (TrainerInit _) | Did Train | Did (SaveModel _) | Did (SaveTokenizer _)
  | Did (Copy2 _ _) => true
  | Did (Makedirs _) | Did (OpenW _) | Did CudaDeviceName => false
  | Out line =>
      String.eqb line "Continue anyway? (y/n): " ||
      String.eqb line ("  Complete " +:+ check_mark)
  end.

(** No operation of the environment is made to fail. *)
Definition fault_free (env : Env) : Prop := ∀ o, fault env o = None.

(** The line was printed. *)
Definition printed (line : string) (tr : list event) : bool :=
  existsb (fun ev => match ev with
                     | Out l => String.eqb l line
                     | Did _ => false
                     end) tr.

(** ** Concrete records, stores and environments used below *)

Definition ex_plain : example :=
  {[ "instruction" := PStr "Count the sessions";
     "output" := PStr "SELECT COUNT(*) FROM sessions" ]}.

Definition ex_with_input : example :=
  {[ "instruction" := PStr "Count the rows";
     "input" := PStr "table: events";
     "output" := PStr "SELECT COUNT(*) FROM events" ]}.



(** A byte-level tokenizer without pad token, as GPT-style tokenizers are. *)
Definition byte_tokenizer : tokenizer := {|
  tokenize := fun s => map (fun b => Z.of_nat (Ascii.nat_of_ascii b))
                           (String.list_ascii_of_string s);
  pad_token := None;
  eos_token := Some 0%Z;
  side := PadRight
|}.

Definition clock_0 (n : nat) : datetime :=
  mkDatetime 2025 3 9 14 5 7 (N.of_nat n).

Definition no_fault (o : op) : option failure := None.

Definition env_base : Env := {|
  argv := ["finetune_model.py"; "Models/base"];
  SCRIPT_DIR := ".";
  environ := ∅;
  sys_version := "3.11.4";
  sys_platform := "linux";
  cuda_is_available := false;
  cuda_device_name := "";
  operator_response := "n";
  clock := clock_0;
  fault := no_fault;
  pretrained_tokenizer := byte_tokenizer;
  trainable_parameters := "trainable params: 1,089,536";
  unicode_upper := fun s => s
|}.

Definition st_base : State :=
  mkState [("Models", Dir); ("Models/base", Dir)] 0 [].

(** A version directory holding [a.jsonl] and [b.jsonl], which the store
    enumerates as [b] before [a], and the same directory enumerated as [a]
    before [b]. *)
Definition st_corpus_ba : State :=
  mkState [("Models", Dir); ("Models/base", Dir);
           ("training data/v1", Dir);
           ("training data/v1/b.jsonl", File (Records [ex_with_input]));
           ("training data/v1/a.jsonl", File (Records [ex_plain]))] 0 [].

Definition st_corpus_ab : State :=
  mkState [("Models", Dir); ("Models/base", Dir);
           ("training data/v1", Dir);
           ("training data/v1/a.jsonl", File (Records [ex_plain]));
           ("training data/v1/b.jsonl", File (Records [ex_with_input]))] 0 [].


(** A version directory whose only corpus file holds no record. *)
Definition st_corpus_empty : State :=
  mkState [("Models", Dir); ("Models/base", Dir);
           ("training data/v1", Dir);
           ("training data/v1/a.jsonl", File (Records []))] 0 [].

(** [OUTPUT_CONFIG] completed with the key that [check_system] and
    [generate_documentation] read: the configuration under which the stages
    after the system check can be reached at all. *)
Definition cfg_with_docs (sd : path) : gmap string path :=
  <[ "documentation_dir" := sd // "docs" ]> (OUTPUT_CONFIG sd).

(** Variations of an environment. *)
Definition with_fault (env : Env) (f : op → option failure) : Env := {|
  argv := argv env; SCRIPT_DIR := SCRIPT_DIR env; environ := environ env;
  sys_version := sys_version env; sys_platform := sys_platform env;
  cuda_is_available := cuda_is_available env;
  cuda_device_name := cuda_device_name env;
  operator_response := operator_response env;
  clock := clock env; fault := f;
  pretrained_tokenizer := pretrained_tokenizer env;
  trainable_parameters := trainable_parameters env;
  unicode_upper := unicode_upper env
|}.

Definition with_argv (env : Env) (a : list string) : Env := {|
  argv := a; SCRIPT_DIR := SCRIPT_DIR env; environ := environ env;
  sys_version := sys_version env; sys_platform := sys_platform env;
  cuda_is_available := cuda_is_available env;
  cuda_device_name := cuda_device_name env;
  operator_response := operator_response env;
  clock := clock env; fault := fault env;
  pretrained_tokenizer := pretrained_tokenizer env;
  trainable_parameters := trainable_parameters env;
  unicode_upper := unicode_upper env
|}.

Definition with_cuda (env : Env) (device : string) : Env := {|
  argv := argv env; SCRIPT_DIR := SCRIPT_DIR env; environ := environ env;
  sys_version := sys_version env; sys_platform := sys_platform env;
  cuda_is_available := true;
  cuda_device_name := device;
  operator_response := operator_response env;
  clock := clock env; fault := fault env;
  pretrained_tokenizer := pretrained_tokenizer env;
  trainable_parameters := trainable_parameters env;
  unicode_upper := unicode_upper env
|}.

(** A machine with an accelerator. *)
Definition env_gpu : Env := with_cuda env_base "NVIDIA GeForce RTX 4070 Laptop GPU".

(** A base model that ships a license, and a corpus of two records. *)
Definition st_licensed : State :=
  mkState [("Models", Dir); ("Models/base", Dir);
           ("Models/base/LICENSE", File (Text "Apache License 2.0"));
           ("training data/v1", Dir);
           ("training data/v1/a.jsonl", File (Records [ex_plain; ex_with_input]))]
          0 [].

(** The same without the license file. *)
Definition st_unlicensed : State :=
  mkState [("Models", Dir); ("Models/base", Dir);
           ("training data/v1", Dir);
           ("training data/v1/a.jsonl", File (Records [ex_plain; ex_with_input]))]
          0 [].


(** A second base model beside the first. *)
Definition st_two_models : State :=
  mkState [("Models", Dir); ("Models/base", Dir); ("Models/other", Dir)] 0 [].

Definition env_other : Env :=
  with_argv env_base ["finetune_model.py"; "Models/other"].

(** Faults injected at single stages. *)
Definition fail_at_load (o : op) : option failure :=
  match o with
  | LoadDataset _ => Some (Fails RuntimeError "DatasetGenerationError")
  | _ => None
  end.

Definition fail_at_train (o : op) : option failure :=
  match o with
  | Train => Some (Fails RuntimeError "CUDA out of memory")
  | _ => None
  end.


(** ** Vocabulary of the statements

    The properties below speak of what a function printed and did (the
    events it added to the trace) and of the store it left. *)

(** A field value carries no header line of its own. *)
Definition header_free (v : pyval) : Prop := section_headers (py_str v) = [].


(** The file holds these records. *)
Definition holds_records (fs : filesystem) (f : path) (rs : dataset) : Prop :=
  fs_lookup fs f = Some (File (Records rs)).

(** [os.makedirs(p, exist_ok=True)] on a store. *)
Definition made (fs : filesystem) (p : path) : filesystem :=
  if fs_exists fs p then fs else fs_set fs p Dir.

(** The three lines of [print_header]. *)
Definition banner (text : string) : list event :=
  [Out (nl +:+ line80); Out ("  " +:+ text); Out (line80 +:+ nl)].

(** The opening of a run: the title and the time of day. *)
Definition opening (env : Env) (st : State) : list event :=
  banner ("Fine-Tuning Script - " +:+ method FINETUNING_CONFIG) ++
  [Out ("[INFO] " +:+ strftime_human (clock env (ticks st)))].

(** What [check_system] prints and does before it creates directories. *)
Definition system_check_report (env : Env) : list event :=
  banner "System Check" ++
  [Out ("[INFO] GPU: " +:+ gpu SYSTEM_CONFIG +:+ ", " +:+ vram SYSTEM_CONFIG);
   Out ("[INFO] CUDA Available: " +:+ py_bool (cuda_is_available env))] ++
  (if cuda_is_available env
   then [Did CudaDeviceName; Out ("[INFO] CUDA Device: " +:+ cuda_device_name env)]
   else []).

(** The whole of [check_system], were both directories configured. *)
Definition system_check_done (env : Env) (dm dd : path) : list event :=
  system_check_report env ++
  [Did (Makedirs dm); Did (Makedirs dd); Out "[SUCCESS] Output directories ready"].

(** The exception [check_system] raises for the key that is not there. *)
Definition documentation_key_error : exn :=
  Exn KeyError "'documentation_dir'" "check_system".

(** The events a computation added to the trace stay short of the prompt
    and of every later stage. *)
Definition stays_in_system_check (st st' : State) : Prop :=
  ∃ new, trace st' = trace st ++ new ∧
         Forall (fun ev => beyond_system_check ev = false) new.


(** What the operator sees when no accelerator is detected. *)
Definition prompt_events (env : Env) : list event :=
  if cuda_is_available env then []
  else [Out "[WARNING] CUDA not available. Fine-tuning will be very slow on CPU.";
        Out "Continue anyway? (y/n): "; Did Input].

(** The state in which the stage after the prompt starts. *)
Definition after_prompt (env : Env) (dm dd : path) (st : State) : State :=
  mkState (made (made (fs st) dm) dd) (S (ticks st))
          (trace st ++ opening env st ++ system_check_done env dm dd ++ prompt_events env).

(** What the loader prints before it calls [load_dataset]. *)
Definition loader_report (v : string) (files : list path) : list event :=
  banner ("Loading Training Data - " +:+ v) ++
  [Out ("[INFO] Found " +:+ pretty (length files) +:+ " training file(s)")] ++
  map (fun f => Out ("[INFO]   - " +:+ path_name f)) files.

(** What [train_model] prints and does up to the licensing step. *)
Definition train_report (out : path) : list event :=
  banner "Fine-Tuning Model" ++
  [Did (TrainerInit out); Out "[INFO] Starting training..."; Did Train;
   Out "[INFO] Saving model..."; Did (SaveModel out); Did (SaveTokenizer out)].

(** The state in which the licensing step of [train_model] runs. *)
Definition packaged (st : State) (out : path) : State :=
  mkState (save_fs (save_fs (fs st) out adapter_files) out tokenizer_files)
          (ticks st) (trace st ++ train_report out).

(** The two records the licensing step can leave: the copy of the license,
    or the log of its absence. *)
Definition license_copied (p : string) (out : path) : list event :=
  [Did (Copy2 (Path p // "LICENSE") (out // "LICENSE"));
   Out "[SUCCESS] Copied LICENSE to output"].

Definition missing_license_log (d : path) (t : datetime) : path :=
  d // ("missing_license_" +:+ strftime_file t +:+ ".log").

Definition license_logged (d : path) (t : datetime) : list event :=
  [Did (Makedirs d); Did (OpenW (missing_license_log d t));
   Out ("[WARNING] No LICENSE found - logged to: " +:+ missing_license_log d t)].

(** What [train_model] does after the licensing step. *)
Definition descriptor_written (out : path) : list event :=
  [Did (OpenW (out // "finetuning_config.json"));
   Out ("[SUCCESS] Model saved: " +:+ out)].

(** ** Tactics *)

(** Unfold the monad and the printing functions, and project the states. *)
Ltac step_m :=
  cbv beta iota zeta delta
    [bind ret raise lift emit print print_header print_info print_success
     print_error print_warning sys_exit path_exists os_path_exists_m glob
     now perform os_makedirs open_w f_write input try_except];
  cbn [fs ticks trace].

(** A run that raised cannot have returned. *)
Ltac absurd_run := step_m; let H := fresh in intros H; discriminate H.

(** Exhibit the events added and check that none is beyond the system check. *)
Ltac quiet_trace :=
  cbn [fs ticks trace]; rewrite <- ?app_assoc;
  eexists; split;
  [ reflexivity
  | cbn [app banner]; repeat (constructor; [reflexivity|]); constructor ].

(** ** Further vocabulary: where a computation can call [sys.exit] *)

(** Every [SystemExit] the computation raises carries a status in [S]. *)
Definition exits_within {A} (S : Z → Prop) (m : M A) : Prop :=
  ∀ st code st', m st = (Raise (SystemExit code), st') → S code.

(** Every value the computation returns satisfies [P]. *)
Definition returns {A} (P : A → Prop) (m : M A) : Prop :=
  ∀ st a st', m st = (Ok a, st') → P a.

(** The operator declines the prompt shown when no accelerator is there. *)
Definition declines (env : Env) : Prop :=
  cuda_is_available env = false ∧ Str.lower (operator_response env) ≠ "y".

(** The operator interrupts while [check_system] creates the models
    directory. *)
Definition interrupt_at_makedirs (o : op) : option failure :=
  match o with
  | Makedirs _ => Some Interrupted
  | _ => None
  end.

(** ** Further vocabulary: what a computation can change in the store *)

(** Outside the paths in [P], the computation leaves every entry of the
    store as it was, however it ends. *)
Definition touches {A} (P : path → Prop) (m : M A) : Prop :=
  ∀ st r st', m st = (r, st') →
    ∀ q, ¬ P q → fs_lookup (fs st') q = fs_lookup (fs st) q.

(** The paths a run under the module's own [OUTPUT_CONFIG] can change. *)
Definition run_may_touch (sd : path) (q : path) : Prop :=
  q = sd // "Models" ∨ q = sd // "logs" ∨
  ∃ t, q = sd // "logs" // crash_report_name (strftime_file t).

(** ** Further vocabulary: the order of timestamps *)

(** Lexicographic combination of two comparisons. *)
Definition lex (c1 c2 : comparison) : comparison :=
  match c1 with
  | Eq => c2
  | _ => c1
  end.

(** The order of two clock readings, to the second. *)
Definition second_compare (t1 t2 : datetime) : comparison :=
  lex (year t1 ?= year t2)%N
    (lex (month t1 ?= month t2)%N
       (lex (day t1 ?= day t2)%N
          (lex (hour t1 ?= hour t2)%N
             (lex (minute t1 ?= minute t2)%N
                  (second t1 ?= second t2)%N)))).

(** ** Further worlds *)

(** A process started without the model argument. *)
Definition env_no_argument : Env := with_argv env_base ["finetune_model.py"].

(** ** Further vocabulary: what a formatted text carries *)

(** The three fields of a record as the template renders them; the input
    is there when it is truthy. *)
Definition template_fields (ex : example) : string * option string * string :=
  let input_text := dict_get ex "input" (PStr "") in
  (py_str (dict_get ex "instruction" (PStr "")),
   if truthy input_text then Some (py_str input_text) else None,
   py_str (dict_get ex "output" (PStr ""))).

(** The record [ex_plain] with a null input and a field the template does
    not read. *)
Definition ex_plain_tagged : example :=
  <[ "input" := PNone ]> (<[ "id" := PInt 7 ]> ex_plain).

(** A tokenizer that defines neither a pad nor an end-of-sequence token. *)
Definition bare_tokenizer : tokenizer := {|
  tokenize := tokenize byte_tokenizer;
  pad_token := None;
  eos_token := None;
  side := PadRight
|}.

(** The report directory cannot be created. *)
Definition fail_at_report_dir (o : op) : option failure :=
  match o with
  | Makedirs "logs" => Some (Fails OSError "Permission denied")
  | _ => None
  end.

(** The three library calls of [setup_model_and_tokenizer]. *)
Definition setup_calls (model_path : string) : list op :=
  [TokenizerFromPretrained model_path; ModelFromPretrained model_path; GetPeftModel].

(** * Properties *)

(** ** Substrings *)

Lemma app_cons c (a b : string) : String c a +:+ b = String c (a +:+ b).
Proof. reflexivity. Qed.

Lemma app_nil (b : string) : "" +:+ b = b.
Proof. reflexivity. Qed.

Lemma startswith_app p s : Str.startswith p (p +:+ s) = true.
Proof.
  induction p as [|c p IH]; [done|].
  rewrite app_cons. simpl. by rewrite Ascii.eqb_refl.
Qed.

Lemma startswith_app2 a b s : Str.startswith (a +:+ b) (a +:+ b +:+ s) = true.
Proof.
  induction a as [|c a IH].
  - rewrite !app_nil. apply startswith_app.
  - rewrite !app_cons. simpl. by rewrite Ascii.eqb_refl.
Qed.

Lemma contains_startswith p s : Str.startswith p s = true → Str.contains p s = true.
Proof. intros H. destruct s; simpl in *; by rewrite H. Qed.

Lemma contains_app_r p a s :
  Str.contains p s = true → Str.contains p (a +:+ s) = true.
Proof.
  intros H. induction a as [|c a IH]; [done|].
  rewrite app_cons. simpl. rewrite IH. apply orb_true_r.
Qed.

Lemma startswith_app_l p s b :
  Str.startswith p s = true → Str.startswith p (s +:+ b) = true.
Proof.
  revert s. induction p as [|a p IH]; intros s; [done|].
  destruct s as [|c s]; [done|]. rewrite app_cons. simpl.
  destruct (Ascii.eqb a c); [apply IH | done].
Qed.

Lemma contains_app_l p s b :
  Str.contains p s = true → Str.contains p (s +:+ b) = true.
Proof.
  induction s as [|c s IH]; intros H.
  - destruct p; [|done]. rewrite app_nil. by destruct b.
  - rewrite app_cons. simpl in *.
    apply orb_true_iff in H as [H | H]; apply orb_true_iff.
    + left. apply (startswith_app_l p (String c s) b H).
    + right. by apply IH.
Qed.

Lemma startswith_refl p : Str.startswith p p = true.
Proof. induction p as [|c p IH]; [done|]. simpl. by rewrite Ascii.eqb_refl. Qed.

Lemma contains_refl p : Str.contains p p = true.
Proof. apply contains_startswith, startswith_refl. Qed.

Lemma startswith_app_same a x y :
  Str.startswith (a +:+ x) (a +:+ y) = Str.startswith x y.
Proof.
  induction a as [|c a IH]; [done|]. rewrite !app_cons. simpl.
  by rewrite Ascii.eqb_refl.
Qed.

(** Find a piece in a text made of parts. *)
Ltac find_piece :=
  first
    [ solve [apply contains_app_l; apply contains_startswith; apply startswith_app2]
    | solve [apply contains_startswith; apply startswith_app]
    | apply contains_app_r; find_piece ].

(** Find a piece made of several parts in a text made of parts. *)
Ltac find_line :=
  first
    [ solve [apply contains_startswith; rewrite !startswith_app_same;
             first [apply startswith_app | apply startswith_refl]]
    | apply contains_app_r; find_line ].

(** Find a piece that opens a group of parts of the text. *)
Ltac find_group :=
  first
    [ solve [apply contains_app_l, contains_startswith;
             rewrite !startswith_app_same; apply startswith_app]
    | apply contains_app_r; find_group ].

Lemma string_app_assoc (a b c : string) : (a +:+ b) +:+ c = a +:+ b +:+ c.
Proof. induction a as [|x a IH]; [done|]. rewrite !app_cons. by rewrite IH. Qed.

Lemma string_app_nil_r (a : string) : a +:+ "" = a.
Proof. induction a as [|x a IH]; [done|]. rewrite app_cons. by rewrite IH. Qed.

Lemma rev_app_append a b : String.rev_app a b = String.rev a +:+ b.
Proof.
  revert b. induction a as [|x a IH]; intros b; [done|].
  unfold String.rev. simpl. rewrite (IH (String x b)), (IH (String x "")).
  by rewrite string_app_assoc.
Qed.

(** ** Timestamps in file names *)

Lemma digit_inj a b : digit a = digit b → (a mod 10 = b mod 10)%N.
Proof.
  unfold digit. intros H. apply (f_equal N_of_ascii) in H.
  pose proof (N.mod_lt a 10 ltac:(done)). pose proof (N.mod_lt b 10 ltac:(done)).
  rewrite !N_ascii_embedding in H; lia.
Qed.

Lemma pad2_inj a b : (a < 100)%N → (b < 100)%N → pad2 a = pad2 b → a = b.
Proof.
  intros Ha Hb [= H1%digit_inj H2%digit_inj].
  rewrite (N.div_mod a 10), (N.div_mod b 10) by lia.
  rewrite N.mod_small in H1 by (apply N.Div0.div_lt_upper_bound; lia).
  rewrite (N.mod_small (b / 10)) in H1 by (apply N.Div0.div_lt_upper_bound; lia).
  by rewrite H1, H2.
Qed.

Lemma pad4_inj a b : (a < 10000)%N → (b < 10000)%N → pad4 a = pad4 b → a = b.
Proof.
  intros Ha Hb. cbv [pad4 pad2 String.append]. intros [= H1 H2 H3 H4].
  assert (E1 : (a / 100 = b / 100)%N).
  { apply pad2_inj; [apply N.Div0.div_lt_upper_bound; lia ..|].
    unfold pad2. by rewrite H1, H2. }
  assert (E2 : (a mod 100 = b mod 100)%N).
  { apply pad2_inj; [apply N.mod_lt; lia ..|].
    unfold pad2. by rewrite H3, H4. }
  rewrite (N.div_mod a 100), (N.div_mod b 100) by lia. by rewrite E1, E2.
Qed.

(** The file-name format keeps the wall-clock second and nothing finer. *)
Lemma strftime_file_second t1 t2 :
  valid_datetime t1 → valid_datetime t2 →
  strftime_file t1 = strftime_file t2 ↔ to_second t1 = to_second t2.
Proof.
  intros (Hy1 & Hm1 & Hd1 & Hh1 & Hn1 & Hs1 & _) (Hy2 & Hm2 & Hd2 & Hh2 & Hn2 & Hs2 & _).
  split.
  - unfold strftime_file. cbv [pad4 pad2 String.append].
    intros [= Y1 Y2 Y3 Y4 M1 M2 D1 D2 H1 H2 N1 N2 S1 S2].
    assert (year t1 = year t2)
      by (apply pad4_inj; try done; cbv [pad4 pad2 String.append];
          by rewrite Y1, Y2, Y3, Y4).
    assert (month t1 = month t2)
      by (apply pad2_inj; try done; unfold pad2; by rewrite M1, M2).
    assert (day t1 = day t2)
      by (apply pad2_inj; try done; unfold pad2; by rewrite D1, D2).
    assert (hour t1 = hour t2)
      by (apply pad2_inj; try done; unfold pad2; by rewrite H1, H2).
    assert (minute t1 = minute t2)
      by (apply pad2_inj; try done; unfold pad2; by rewrite N1, N2).
    assert (second t1 = second t2)
      by (apply pad2_inj; try done; unfold pad2; by rewrite S1, S2).
    unfold to_second. congruence.
  - unfold to_second, strftime_file. intros [= -> -> -> -> -> ->]. reflexivity.
Qed.

Lemma path_join_inj d n1 n2 : d // n1 = d // n2 → n1 = n2.
Proof.
  unfold path_join. destruct (String.eqb d "."); [done|].
  destruct (String.eqb d "/"); intros H.
  - by apply (inj (String.app "/")) in H.
  - apply (inj (String.app d)) in H. by apply (inj (String.app "/")) in H.
Qed.

Lemma string_length_app (a b : string) :
  String.length (a +:+ b) = String.length a + String.length b.
Proof.
  induction a as [|c a IH]; [done|]. rewrite app_cons. simpl. by rewrite IH.
Qed.

Lemma app_inj_r (a b s : string) : a +:+ s = b +:+ s → a = b.
Proof.
  revert b. induction a as [|c a IH]; intros [|c' b] H;
    rewrite ?app_cons, ?app_nil in H.
  - done.
  - apply (f_equal String.length) in H. simpl in H.
    rewrite string_length_app in H. lia.
  - apply (f_equal String.length) in H. simpl in H.
    rewrite string_length_app in H. lia.
  - injection H as -> H. f_equal. by apply IH.
Qed.

(** Two crash reports of one directory share their file exactly when their
    timestamps fall into the same second. *)
Lemma crash_report_path_second d t1 t2 :
  valid_datetime t1 → valid_datetime t2 →
  d // crash_report_name (strftime_file t1) = d // crash_report_name (strftime_file t2)
  ↔ to_second t1 = to_second t2.
Proof.
  intros V1 V2. rewrite <- (strftime_file_second t1 t2 V1 V2). split.
  - intros H%path_join_inj. unfold crash_report_name in H.
    apply (inj (String.app _)) in H. by apply app_inj_r in H.
  - by intros ->.
Qed.


(** ** Splitting into lines *)

Lemma split_go_app sep cur a b :
  Str.split_go sep cur (a +:+ String sep b)
  = (Str.split_go sep cur a ++ Str.split_go sep EmptyString b)%list.
Proof.
  revert cur. induction a as [|c a IH]; intros cur; simpl.
  - by rewrite Ascii.eqb_refl.
  - destruct (Ascii.eqb c sep); simpl; by rewrite IH.
Qed.

Lemma lines_app a b :
  Str.lines (a +:+ nl +:+ b) = (Str.lines a ++ Str.lines b)%list.
Proof. apply split_go_app. Qed.

Lemma section_headers_app a b :
  section_headers (a +:+ nl +:+ b) = (section_headers a ++ section_headers b)%list.
Proof. unfold section_headers. by rewrite lines_app, omap_app. Qed.

Lemma section_headers_blank b :
  section_headers (nl +:+ b) = section_headers b.
Proof. apply (section_headers_app "" b). Qed.

Lemma text_of_format_instruction ex :
  text_of (format_instruction ex) = prompt_of ex.
Proof. reflexivity. Qed.

(** The headers of a formatted text are those of the template, interleaved
    with whatever header lines the fields themselves carry. *)
Lemma section_headers_prompt (ex : example) :
  let instruction := py_str (dict_get ex "instruction" (PStr "")) in
  let input_text := dict_get ex "input" (PStr "") in
  let output_text := py_str (dict_get ex "output" (PStr "")) in
  section_headers (prompt_of ex) =
    if truthy input_text then
      ([HInstruction] ++ section_headers instruction ++
       [HInput] ++ section_headers (py_str input_text) ++
       [HResponse] ++ section_headers output_text)%list
    else
      ([HInstruction] ++ section_headers instruction ++
       [HResponse] ++ section_headers output_text)%list.
Proof.
  intros instruction input_text output_text. unfold prompt_of.
  fold input_text. destruct (truthy input_text).
  - rewrite !section_headers_app, !section_headers_blank, !section_headers_app.
    reflexivity.
  - rewrite !section_headers_app, !section_headers_blank, !section_headers_app.
    reflexivity.
Qed.





(** ** Sequence encoding *)





Lemma batches_nonempty {A} size (l : list A) : l ≠ [] → batches size l ≠ [].
Proof. by destruct l. Qed.

Lemma batches_head {A} size (l : list A) :
  l ≠ [] → 0 < size → ∃ x b bs, batches size l = (x :: b) :: bs.
Proof.
  destruct l as [|x l]; [done|]. intros _ Hs. unfold batches. cbn [length batches_go].
  destruct size as [|size]; [lia|]. cbn [take]. eauto.
Qed.



Lemma with_pad_fallback_tokenize tok0 text :
  tokenize (with_pad_fallback tok0) text = tokenize tok0 text.
Proof. unfold with_pad_fallback. by destruct (pad_token tok0). Qed.








(** ** Stepping through the monad *)

Lemma state_eta st : mkState (fs st) (ticks st) (trace st) = st.
Proof. by destruct st. Qed.

Lemma print_header_run text st :
  print_header text st
  = (Ok tt, mkState (fs st) (ticks st) (trace st ++ banner text)).
Proof. step_m. unfold banner. by rewrite <- !app_assoc. Qed.

Lemma for_each_out {A} (l : list A) (g : A → string) st :
  for_each l (fun x st => (Ok tt, mkState (fs st) (ticks st) (trace st ++ [Out (g x)]))) st
  = (Ok tt, mkState (fs st) (ticks st) (trace st ++ map (fun x => Out (g x)) l)).
Proof.
  revert st. induction l as [|x l IH]; intros st; simpl.
  - unfold ret. by rewrite app_nil_r, state_eta.
  - unfold bind at 1. rewrite IH. simpl. by rewrite <- app_assoc.
Qed.

Lemma output_config_models sd : OUTPUT_CONFIG sd !! "models_dir" = Some (sd // "Models").
Proof. reflexivity. Qed.

Lemma output_config_training sd :
  OUTPUT_CONFIG sd !! "training_data_dir" = Some (sd // "training data").
Proof. reflexivity. Qed.

Lemma output_config_logs sd : OUTPUT_CONFIG sd !! "crash_reports_dir" = Some (sd // "logs").
Proof. reflexivity. Qed.

Lemma output_config_documentation sd : OUTPUT_CONFIG sd !! "documentation_dir" = None.
Proof. reflexivity. Qed.

Lemma output_config_dom sd :
  dom (OUTPUT_CONFIG sd)
  = ({["models_dir"; "training_data_dir"; "crash_reports_dir"]} : gset string).
Proof. unfold OUTPUT_CONFIG. rewrite !dom_insert_L, dom_empty_L. set_solver. Qed.

(** ** The dataset loader *)

Section Loader.
Context (cfg : gmap string path) (env : Env) (d : path).
Hypothesis Hcfg : cfg !! "training_data_dir" = Some d.

Lemma load_training_data_absent v st :
  fs_exists (fs st) (d // v) = false →
  load_training_data cfg env v st
  = (Raise (SystemExit 1),
     mkState (fs st) (ticks st)
       (trace st ++ banner ("Loading Training Data - " +:+ v) ++
        [Out ("[ERROR] Training data not found: " +:+ d // v)])).
Proof.
  intros He. unfold load_training_data, subscript. rewrite Hcfg.
  step_m. rewrite He. simpl. unfold banner. by rewrite <- !app_assoc.
Qed.

Lemma load_training_data_no_files v st :
  fs_exists (fs st) (d // v) = true →
  glob_suffix (fs st) (d // v) ".jsonl" = [] →
  load_training_data cfg env v st
  = (Raise (SystemExit 1),
     mkState (fs st) (ticks st)
       (trace st ++ banner ("Loading Training Data - " +:+ v) ++
        [Out ("[ERROR] No .jsonl files found in " +:+ d // v)])).
Proof.
  intros He Hg. unfold load_training_data, subscript. rewrite Hcfg.
  step_m. rewrite He. simpl. rewrite Hg. simpl.
  unfold banner. by rewrite <- !app_assoc.
Qed.

Lemma load_training_data_files v st files :
  fs_exists (fs st) (d // v) = true →
  glob_suffix (fs st) (d // v) ".jsonl" = files →
  files ≠ [] →
  load_training_data cfg env v st
  = (ds <- load_dataset env files ;;
     print_success ("Loaded " +:+ pretty (length ds) +:+ " training examples") ;;;
     ret ds)%py
      (mkState (fs st) (ticks st) (trace st ++ loader_report v files)).
Proof.
  intros He Hg Hne. unfold load_training_data, subscript. rewrite Hcfg.
  step_m. rewrite He. simpl. rewrite Hg.
  rewrite bool_decide_eq_false_2 by done.
  rewrite for_each_out. simpl.
  unfold loader_report, banner. by rewrite <- !app_assoc.
Qed.

End Loader.

Lemma read_records_concat fs files ds :
  read_records fs files = Some ds ↔
  ∃ recs, Forall2 (holds_records fs) files recs ∧ ds = concat recs.
Proof.
  revert ds. induction files as [|f files IH]; intros ds; simpl.
  - split.
    + intros [= <-]. exists []. by split; [constructor|].
    + intros (recs & HF & ->). by inversion HF.
  - split.
    + destruct (fs_lookup fs f) as [[|[ | rs | ]]|] eqn:E; try done.
      destruct (read_records fs files) as [rest|] eqn:E2; [|done].
      intros [= <-]. destruct (proj1 (IH rest) eq_refl) as (recs & HF & ->).
      exists (rs :: recs). split; [by constructor | done].
    + intros (recs & HF & ->). inversion HF as [|? rs ? recs' Hh HF']; subst.
      unfold holds_records in Hh. rewrite Hh.
      assert (Hrest : read_records fs files = Some (concat recs'))
        by (apply IH; by exists recs').
      by rewrite Hrest.
Qed.

Lemma glob_suffix_sublist fs d suffix :
  sublist (glob_suffix fs d suffix) (map fst fs).
Proof.
  unfold glob_suffix. destruct (fs_lookup fs d) as [[|]|];
    try apply sublist_nil_l.
  induction fs as [|e fs' IH]; simpl; [constructor|].
  destruct (child_name d e.1) as [name|]; [destruct (Str.endswith suffix name)|];
    simpl; by constructor.
Qed.

Lemma load_training_data_inv cfg env d v st ds st' :
  cfg !! "training_data_dir" = Some d →
  load_training_data cfg env v st = (Ok ds, st') →
  let files := glob_suffix (fs st) (d // v) ".jsonl" in
  fs_exists (fs st) (d // v) = true ∧
  files ≠ [] ∧
  fault env (LoadDataset files) = None ∧
  read_records (fs st) files = Some ds ∧
  ds ≠ [] ∧
  st' = mkState (fs st) (ticks st)
          (trace st ++ loader_report v files ++
           [Did (LoadDataset files);
            Out ("[SUCCESS] Loaded " +:+ pretty (length ds) +:+ " training examples")]).
Proof.
  intros Hcfg H files.
  destruct (fs_exists (fs st) (d // v)) eqn:He;
    [|by rewrite (load_training_data_absent cfg env d Hcfg) in H].
  destruct (decide (files = [])) as [Hg | Hg];
    [by rewrite (load_training_data_no_files cfg env d Hcfg) in H|].
  rewrite (load_training_data_files cfg env d Hcfg v st files He eq_refl Hg) in H.
  unfold load_dataset in H. unfold bind at 1 in H.
  destruct (fault env (LoadDataset files)) eqn:Ef; [done|].
  cbn [fs ticks trace] in H.
  destruct (read_records (fs st) files) as [rs|] eqn:Er; [|done].
  destruct (decide (rs = [])) as [-> | Hrs]; [done|].
  rewrite bool_decide_eq_false_2 in H by done.
  revert H. step_m. intros [= <- <-].
  repeat split; try done. by rewrite <- !app_assoc.
Qed.

(** C9, as amended: when the loader returns, the dataset is the
    concatenation of the records of all matching files, file after file in
    the order in which the store enumerates them (the matching files are a
    subsequence of the store's enumeration); nothing is sorted. *)
Theorem load_training_data_enumeration_order (env : Env) (v : string)
    (st st' : State) (ds : dataset) :
  load_training_data (OUTPUT_CONFIG (SCRIPT_DIR env)) env v st = (Ok ds, st') →
  let files := glob_suffix (fs st) (SCRIPT_DIR env // "training data" // v) ".jsonl" in
  files ≠ [] ∧
  sublist files (map fst (fs st)) ∧
  (∃ recs, Forall2 (holds_records (fs st)) files recs ∧ ds = concat recs) ∧
  Did (LoadDataset files) ∈ trace st' ∧
  fs st' = fs st.
Proof.
  intros H files.
  destruct (load_training_data_inv _ _ _ _ _ _ _ (output_config_training _) H)
    as (_ & Hne & _ & Hr & _ & ->).
  repeat split; try done.
  - apply glob_suffix_sublist.
  - by apply read_records_concat.
  - cbn [trace]. rewrite !elem_of_app. right. right. left.
Qed.

Lemma load_training_data_enumeration_order_witness :
  let st' := (load_training_data (OUTPUT_CONFIG ".") env_base "v1" st_corpus_ba).2 in
  let files := ["training data/v1/b.jsonl"; "training data/v1/a.jsonl"] in
  sublist files (map fst (fs st_corpus_ba)) ∧
  (∃ recs, Forall2 (holds_records (fs st_corpus_ba)) files recs ∧
           [ex_with_input; ex_plain] = concat recs) ∧
  Did (LoadDataset files) ∈ trace st'.
Proof.
  intros st' files.
  destruct (load_training_data_enumeration_order env_base "v1" st_corpus_ba st'
              [ex_with_input; ex_plain]) as (_ & H1 & H2 & H3 & _).
  - vm_compute. reflexivity.
  - exact (conj H1 (conj H2 H3)).
Defined.

(** C9 as stated fails: the same two files, enumerated by the store in two
    different orders, are concatenated in two different orders; in the
    first, the records of [b.jsonl] come before those of [a.jsonl]. *)
Lemma load_training_data_order_counterexample :
  fs st_corpus_ba ≡ₚ fs st_corpus_ab ∧
  (load_training_data (OUTPUT_CONFIG ".") env_base "v1" st_corpus_ba).1
  = Ok [ex_with_input; ex_plain] ∧
  (load_training_data (OUTPUT_CONFIG ".") env_base "v1" st_corpus_ab).1
  = Ok [ex_plain; ex_with_input] ∧
  String.ltb "training data/v1/a.jsonl" "training data/v1/b.jsonl" = true ∧
  [ex_with_input; ex_plain] ≠ [ex_plain; ex_with_input].
Proof.
  split; [|split; [|split; [|split]]].
  - simpl. do 3 f_equiv. apply Permutation_swap.
  - vm_compute. reflexivity.
  - vm_compute. reflexivity.
  - reflexivity.
  - intros H.
    apply (f_equal (fun l : dataset => head l ≫= lookup "input")) in H.
    vm_compute in H. discriminate.
Qed.

(** The loader never calls [sys.exit] once it has found matching files. *)
Lemma load_dataset_raises env files st e st' :
  load_dataset env files st = (Raise e, st') →
  (∀ code, e ≠ SystemExit code) ∧ st' = st.
Proof.
  unfold load_dataset.
  destruct (fault env (LoadDataset files)) as [f|].
  - intros [= <- <-]. split; [|done]. intros code. by destruct f.
  - destruct (read_records (fs st) files) as [rs|]; [destruct (bool_decide (rs = []))|];
      intros [= <- <-]; by split.
Qed.

Lemma load_training_data_exit cfg env d v st code st' :
  cfg !! "training_data_dir" = Some d →
  load_training_data cfg env v st = (Raise (SystemExit code), st') →
  code = 1%Z ∧
  (fs_exists (fs st) (d // v) = false ∨ glob_suffix (fs st) (d // v) ".jsonl" = []) ∧
  fs st' = fs st.
Proof.
  intros Hcfg H.
  destruct (fs_exists (fs st) (d // v)) eqn:He.
  - destruct (decide (glob_suffix (fs st) (d // v) ".jsonl" = [])) as [Hg | Hg].
    + rewrite (load_training_data_no_files cfg env d Hcfg v st He Hg) in H.
      injection H as <- <-. split; [done|]. split; [by right | done].
    + rewrite (load_training_data_files cfg env d Hcfg v st _ He eq_refl Hg) in H.
      exfalso. revert H. unfold bind at 1.
      destruct (load_dataset env _ _) as [[ds|e] st1] eqn:Hl.
      * step_m. intros H. discriminate H.
      * intros [= -> ->]. apply load_dataset_raises in Hl as [Hl _]. by apply (Hl code).
  - rewrite (load_training_data_absent cfg env d Hcfg v st He) in H.
    injection H as <- <-. split; [done|]. split; [by left | done].
Qed.

(** Matching files that together hold no record make the JSON loader, and
    with it [load_training_data], raise an [Exception]. *)
Lemma load_training_data_no_records cfg env d v st recs :
  cfg !! "training_data_dir" = Some d →
  let files := glob_suffix (fs st) (d // v) ".jsonl" in
  fs_exists (fs st) (d // v) = true →
  files ≠ [] →
  fault env (LoadDataset files) = None →
  Forall2 (holds_records (fs st)) files recs →
  concat recs = [] →
  load_training_data cfg env v st
  = (Raise (Exn DatasetGenerationError
              "An error occurred while generating the dataset" "load_dataset"),
     mkState (fs st) (ticks st) (trace st ++ loader_report v files)).
Proof.
  intros Hcfg files He Hg Hf HF Hc.
  rewrite (load_training_data_files cfg env d Hcfg v st files He eq_refl Hg).
  unfold bind at 1. unfold load_dataset. rewrite Hf. cbn [fs].
  assert (Hr : read_records (fs st) files = Some []).
  { apply read_records_concat. exists recs. by split. }
  by rewrite Hr.
Qed.

(** C10, as amended: whenever the loader returns, the version directory
    exists, at least one file matches, and the dataset has as many records
    as the matching files hold together, which is not none: the JSON loader
    raises when the files together hold no record.  The loader itself ends
    the run as a pre-flight failure ([sys.exit(1)], the store untouched)
    exactly when the version directory is absent or holds no matching
    file; it makes no check of its own on the number of records.  Matching
    files that together hold no record are therefore not a pre-flight
    failure: what leaves the loader is the [Exception] of the JSON loader,
    not [SystemExit]. *)
Theorem load_training_data_result (env : Env) (v : string) (st : State) :
  let cfg := OUTPUT_CONFIG (SCRIPT_DIR env) in
  let data_dir := SCRIPT_DIR env // "training data" // v in
  let files := glob_suffix (fs st) data_dir ".jsonl" in
  (∀ ds st', load_training_data cfg env v st = (Ok ds, st') →
     fs_exists (fs st) data_dir = true ∧ files ≠ [] ∧ ds ≠ [] ∧
     ∃ recs, Forall2 (holds_records (fs st)) files recs ∧
             length ds = length (concat recs)) ∧
  (fs_exists (fs st) data_dir = false ∨ files = [] →
     ∃ st', load_training_data cfg env v st = (Raise (SystemExit 1), st') ∧
            fs st' = fs st) ∧
  (∀ code st', load_training_data cfg env v st = (Raise (SystemExit code), st') →
     code = 1%Z ∧ (fs_exists (fs st) data_dir = false ∨ files = []) ∧ fs st' = fs st) ∧
  (∀ recs, fs_exists (fs st) data_dir = true → files ≠ [] →
     fault env (LoadDataset files) = None →
     Forall2 (holds_records (fs st)) files recs → concat recs = [] →
     ∃ msg st',
       load_training_data cfg env v st
       = (Raise (Exn DatasetGenerationError msg "load_dataset"), st') ∧
       fs st' = fs st).
Proof.
  intros cfg data_dir files. split; [|split; [|split]].
  - intros ds st' H.
    destruct (load_training_data_inv _ _ _ _ _ _ _ (output_config_training _) H)
      as (He & Hne & _ & Hr & Hds & _).
    split; [done|]. split; [done|]. split; [done|].
    apply read_records_concat in Hr as (recs & HF & ->). by exists recs.
  - intros H. destruct (fs_exists (fs st) data_dir) eqn:He.
    + destruct H as [H | H]; [done|].
      eexists. split; [|shelve].
      by apply (load_training_data_no_files cfg env _ (output_config_training _)).
    + eexists. split; [|shelve].
      by apply (load_training_data_absent cfg env _ (output_config_training _)).
      Unshelve. all: reflexivity.
  - intros code st'.
    apply (load_training_data_exit cfg env _ v st code st' (output_config_training _)).
  - intros recs He Hg Hf HF Hc. eexists. eexists. split.
    + by apply (load_training_data_no_records cfg env _ v st recs
                  (output_config_training _)).
    + reflexivity.
Qed.

Lemma load_training_data_result_witness :
  (load_training_data (OUTPUT_CONFIG ".") env_base "v1" st_corpus_ba).1
  = Ok [ex_with_input; ex_plain] ∧
  ∃ msg,
    (load_training_data (OUTPUT_CONFIG ".") env_base "v1" st_corpus_empty).1
    = Raise (Exn DatasetGenerationError msg "load_dataset").
Proof.
  split; [vm_compute; reflexivity|].
  destruct (proj2 (proj2 (proj2 (load_training_data_result env_base "v1" st_corpus_empty)))
              [[]]) as (msg & st' & H & _).
  - vm_compute. reflexivity.
  - vm_compute. discriminate.
  - reflexivity.
  - vm_compute. repeat constructor.
  - reflexivity.
  - exists msg. exact (f_equal fst H).
Defined.

(** C10 as stated fails: a version directory whose only matching file
    holds no record passes both checks of the loader.  The run is not
    ended by the pre-flight exit: what leaves the loader is the
    [Exception] of the JSON loader. *)
Lemma load_training_data_empty_counterexample :
  fs_exists (fs st_corpus_empty) "training data/v1" = true ∧
  glob_suffix (fs st_corpus_empty) ("." // "training data" // "v1") ".jsonl"
  = ["training data/v1/a.jsonl"] ∧
  fs_lookup (fs st_corpus_empty) "training data/v1/a.jsonl" = Some (File (Records [])) ∧
  (load_training_data (OUTPUT_CONFIG ".") env_base "v1" st_corpus_empty).1
  = Raise (Exn DatasetGenerationError
             "An error occurred while generating the dataset" "load_dataset") ∧
  (load_training_data (OUTPUT_CONFIG ".") env_base "v1" st_corpus_empty).1
  ≠ Raise (SystemExit 1).
Proof. repeat split; try (vm_compute; reflexivity). vm_compute. discriminate. Qed.

(** ** The store *)

Lemma fs_lookup_set_eq fs p n : fs_lookup (fs_set fs p n) p = Some n.
Proof.
  induction fs as [|[q m] fs IH]; simpl.
  - by rewrite String.eqb_refl.
  - destruct (String.eqb q p) eqn:E; simpl; by rewrite E.
Qed.

Lemma fs_lookup_set_ne fs p q n :
  p ≠ q → fs_lookup (fs_set fs p n) q = fs_lookup fs q.
Proof.
  intros Hne. induction fs as [|[r m] fs IH]; simpl.
  - destruct (String.eqb_spec p q); done.
  - destruct (String.eqb_spec r p) as [-> | Hrp]; simpl.
    + destruct (String.eqb_spec p q); done.
    + by rewrite IH.
Qed.



(** ** The system check and the top-level handler *)

Lemma check_system_key_error cfg env st d :
  cfg !! "models_dir" = Some d →
  cfg !! "documentation_dir" = None →
  fault env CudaDeviceName = None →
  fault env (Makedirs d) = None →
  check_system cfg env st
  = (Raise documentation_key_error,
     mkState (made (fs st) d) (ticks st)
             (trace st ++ system_check_report env ++ [Did (Makedirs d)])).
Proof.
  intros Hm Hd Hc Hmk. unfold check_system, subscript. rewrite Hm, Hd.
  unfold system_check_report, banner, made.
  destruct (cuda_is_available env); step_m; rewrite ?Hc, Hmk; step_m;
    by rewrite <- !app_assoc.
Qed.

Lemma write_crash_report_run cfg env e ctx st d :
  cfg !! "crash_reports_dir" = Some d →
  let report := d // crash_report_name (strftime_file (clock env (ticks st))) in
  fault env (Makedirs d) = None →
  fault env (OpenW report) = None →
  write_crash_report cfg env e ctx st
  = (Ok report,
     mkState
       (fs_set (fs_set (made (fs st) d) report (File (Text "")))
               report
               (File (Text (crash_report_text env (clock env (S (ticks st))) e ctx))))
       (S (S (ticks st)))
       (trace st ++ [Did (Makedirs d); Did (OpenW report);
                     Out ("[ERROR] Crash report saved: " +:+ report)])).
Proof.
  intros Hd report Hmk Ho. unfold write_crash_report, subscript. rewrite Hd.
  step_m. rewrite Hmk. step_m. fold report. rewrite Ho. step_m.
  unfold made. by rewrite <- !app_assoc.
Qed.

(** An [Exception] raised in the body of [main] is handed to the handler:
    the failure is printed, the crash report written, and [sys.exit(1)]
    called. *)
Lemma main_exception cfg env st c msg origin st1 :
  main_body cfg env st = (Raise (Exn c msg origin), st1) →
  main cfg env st
  = (print_error ("Failed: " +:+ msg) ;;;
     write_crash_report cfg env (Exn c msg origin) (error_context env) ;;;
     sys_exit 1)%py st1.
Proof. intros H. unfold main, try_except. by rewrite H. Qed.

Lemma main_system_exit cfg env st code st1 :
  main_body cfg env st = (Raise (SystemExit code), st1) →
  main cfg env st = (Raise (SystemExit code), st1).
Proof. intros H. unfold main, try_except. by rewrite H. Qed.

Lemma main_exception_reported cfg env st c msg origin st1 d :
  main_body cfg env st = (Raise (Exn c msg origin), st1) →
  cfg !! "crash_reports_dir" = Some d →
  let report := d // crash_report_name (strftime_file (clock env (ticks st1))) in
  fault env (Makedirs d) = None →
  fault env (OpenW report) = None →
  main cfg env st
  = (Raise (SystemExit 1),
     mkState
       (fs_set (fs_set (made (fs st1) d) report (File (Text "")))
               report
               (File (Text (crash_report_text env (clock env (S (ticks st1)))
                              (Exn c msg origin) (error_context env)))))
       (S (S (ticks st1)))
       (trace st1 ++ [Out ("[ERROR] Failed: " +:+ msg);
                      Did (Makedirs d); Did (OpenW report);
                      Out ("[ERROR] Crash report saved: " +:+ report)])).
Proof.
  intros Hb Hd report Hmk Ho. rewrite (main_exception _ _ _ _ _ _ _ Hb).
  unfold bind at 1. unfold print_error at 1, print, emit.
  unfold bind at 1.
  rewrite (write_crash_report_run cfg env _ _ (mkState _ _ _) d Hd Hmk Ho).
  step_m. by rewrite <- !app_assoc.
Qed.

Lemma main_body_preflight cfg env st s p :
  argv env = [s; p] →
  os_path_exists (fs st) p = true →
  main_body cfg env st
  = (check_system cfg env ;;;
     (if negb (cuda_is_available env) then
        print_warning "CUDA not available. Fine-tuning will be very slow on CPU." ;;;
        response <- input env "Continue anyway? (y/n): " ;;
        if negb (String.eqb (Str.lower response) "y") then sys_exit 0 else ret tt
      else ret tt) ;;;
     dataset <- load_training_data cfg env (version FINETUNING_CONFIG) ;;
     loaded <- setup_model_and_tokenizer env p ;;
     prepared_dataset <- prepare_dataset env dataset loaded.2 ;;
     output_dir <- train_model cfg env loaded.1 loaded.2 prepared_dataset
                     (path_name p) (version FINETUNING_CONFIG) ;;
     generate_documentation cfg env (path_name p) output_dir p
       (version FINETUNING_CONFIG) (length dataset) ;;;
     print_header ("Complete " +:+ check_mark) ;;;
     print_success ("Fine-tuned model: " +:+ output_dir) ;;;
     print_info "Next: Quantize the fine-tuned model for CPU deployment")%py
      (mkState (fs st) (S (ticks st)) (trace st ++ opening env st)).
Proof.
  intros Ha He. unfold main_body. rewrite Ha. cbn [length nth Nat.eqb negb].
  unfold bind at 1. rewrite print_header_run.
  unfold bind at 1. unfold now at 1. cbn [fs ticks trace].
  unfold bind at 1. unfold print_info at 1, print, emit. cbn [fs ticks trace].
  unfold bind at 1. unfold ret at 1.
  unfold bind at 1. unfold os_path_exists_m at 1. cbn [fs ticks trace].
  rewrite He. cbn [negb].
  unfold bind at 1. unfold ret at 1.
  unfold opening. by rewrite <- !app_assoc.
Qed.

(** ** The run under the module's own [OUTPUT_CONFIG] *)

Lemma stays_trans st1 st2 st3 :
  stays_in_system_check st1 st2 → stays_in_system_check st2 st3 →
  stays_in_system_check st1 st3.
Proof.
  intros (n1 & H1 & F1) (n2 & H2 & F2). exists (n1 ++ n2). split.
  - by rewrite H2, H1, app_assoc.
  - by apply Forall_app.
Qed.

Lemma exn_of_failure_not_exit f origin code :
  exn_of_failure f origin ≠ SystemExit code.
Proof. by destruct f. Qed.

Lemma check_system_never_returns sd env st :
  ∃ e st', check_system (OUTPUT_CONFIG sd) env st = (Raise e, st') ∧
           (∀ code, e ≠ SystemExit code) ∧
           stays_in_system_check st st'.
Proof.
  unfold check_system, subscript.
  rewrite output_config_models, output_config_documentation.
  destruct (cuda_is_available env);
    [destruct (fault env CudaDeviceName) as [f1|] eqn:E1|];
    destruct (fault env (Makedirs (sd // "Models"))) as [f2|] eqn:E2;
    step_m; rewrite ?E1, ?E2; step_m;
    eexists; eexists; (split; [reflexivity|]);
    (split; [intros code; first [apply exn_of_failure_not_exit | discriminate]|]);
    quiet_trace.
Qed.

Lemma main_body_never_returns env st :
  ∃ e st', main_body (OUTPUT_CONFIG (SCRIPT_DIR env)) env st = (Raise e, st') ∧
           e ≠ SystemExit 0 ∧
           stays_in_system_check st st'.
Proof.
  destruct (length (argv env) =? 2) eqn:El.
  - apply Nat.eqb_eq in El.
    destruct (argv env) as [|s [|p [|]]] eqn:Ha; try done.
    destruct (os_path_exists (fs st) p) eqn:He.
    + rewrite (main_body_preflight _ env st s p Ha He).
      destruct (check_system_never_returns (SCRIPT_DIR env) env
                  (mkState (fs st) (S (ticks st)) (trace st ++ opening env st)))
        as (e & st' & Hc & Hne & Hq).
      exists e, st'. unfold bind at 1. rewrite Hc.
      split; [done|]. split; [apply Hne|].
      eapply stays_trans; [|exact Hq]. unfold opening. quiet_trace.
    + unfold main_body. rewrite Ha. cbn [length nth Nat.eqb negb].
      step_m. rewrite He. step_m.
      eexists; eexists. split; [reflexivity|]. split; [done|]. quiet_trace.
  - unfold main_body. rewrite El. step_m.
    eexists; eexists. split; [reflexivity|]. split; [done|]. quiet_trace.
Qed.

(** Whatever the arguments, the store and the faults, a run ends with
    status 1 or 130 and never gets past the system check. *)
Lemma run_never_completes env st :
  ((run env st).1 = 1%Z ∨ (run env st).1 = 130%Z) ∧
  stays_in_system_check st (run env st).2.
Proof.
  unfold run.
  destruct (main_body_never_returns env st) as (e & st1 & Hb & Hne & Hq).
  unfold main, try_except. rewrite Hb.
  destruct e as [c msg origin | code |]; cbn [main_handler].
  - unfold write_crash_report, subscript. rewrite output_config_logs.
    destruct (fault env (Makedirs (SCRIPT_DIR env // "logs"))) as [f1|] eqn:E1.
    + step_m. rewrite E1. step_m.
      split; [destruct f1; simpl; auto|].
      eapply stays_trans; [exact Hq|]. quiet_trace.
    + destruct (fault env (OpenW (SCRIPT_DIR env // "logs" //
                  crash_report_name (strftime_file (clock env (ticks st1))))))
        as [f2|] eqn:E2.
      * step_m. rewrite E1. step_m. rewrite E2. step_m.
        split; [destruct f2; simpl; auto|].
        eapply stays_trans; [exact Hq|]. quiet_trace.
      * step_m. rewrite E1. step_m. rewrite E2. step_m.
        split; [simpl; auto|].
        eapply stays_trans; [exact Hq|]. quiet_trace.
  - simpl. split; [|exact Hq].
    (* the only [sys.exit] calls reached have status 1 *)
    revert Hb.
    destruct (length (argv env) =? 2) eqn:El.
    + apply Nat.eqb_eq in El.
      destruct (argv env) as [|s [|p [|]]] eqn:Ha; try done.
      destruct (os_path_exists (fs st) p) eqn:He.
      * rewrite (main_body_preflight _ env st s p Ha He).
        destruct (check_system_never_returns (SCRIPT_DIR env) env
                    (mkState (fs st) (S (ticks st)) (trace st ++ opening env st)))
          as (e & st' & Hc & Hne' & _).
        unfold bind at 1. rewrite Hc. intros [= -> _]. by destruct (Hne' code).
      * unfold main_body. rewrite Ha. cbn [length nth Nat.eqb negb].
      step_m. rewrite He. step_m.
        intros [= <- _]. auto.
    + unfold main_body. rewrite El. step_m. intros [= <- _]. auto.
  - step_m. simpl. split; [auto|].
    eapply stays_trans; [exact Hq|]. quiet_trace.
Qed.

Lemma generate_documentation_key_error cfg env name out orig v n st :
  cfg !! "documentation_dir" = None →
  (generate_documentation cfg env name out orig v n st).1
  = Raise (Exn KeyError "'documentation_dir'" "generate_documentation").
Proof.
  intros Hd. unfold generate_documentation, subscript. rewrite Hd.
  step_m. reflexivity.
Qed.

Lemma error_context_argv env s p :
  argv env = [s; p] → error_context env = "Model: " +:+ p.
Proof. intros Ha. unfold error_context. by rewrite Ha. Qed.

(** C1: [OUTPUT_CONFIG] defines the keys [models_dir], [training_data_dir]
    and [crash_reports_dir] only.  In a run whose base-model path exists
    (and in which the environment makes no operation fail), [check_system]
    raises [KeyError: 'documentation_dir']; the top-level handler writes one
    crash report for it and the process ends with status 1; nothing of the
    prompt, of the dataset loading or of a later stage happens.  Whatever
    the run, it never ends with status 0 and never gets past the system
    check, and [generate_documentation] raises the same [KeyError]. *)
Theorem check_system_key_error_aborts_run (env : Env) (st : State) (s p : string) :
  fault_free env →
  argv env = [s; p] →
  os_path_exists (fs st) p = true →
  let sd := SCRIPT_DIR env in
  let cfg := OUTPUT_CONFIG sd in
  let report :=
    sd // "logs" // crash_report_name (strftime_file (clock env (S (ticks st)))) in
  dom cfg = ({["models_dir"; "training_data_dir"; "crash_reports_dir"]} : gset string) ∧
  (∀ st0, (check_system cfg env st0).1 = Raise documentation_key_error) ∧
  (∃ st', run env st = (1%Z, st') ∧
     fs_lookup (fs st') report
     = Some (File (Text (crash_report_text env (clock env (S (S (ticks st))))
                           documentation_key_error ("Model: " +:+ p)))) ∧
     trace st' = trace st ++ opening env st ++ system_check_report env ++
                 [Did (Makedirs (sd // "Models"));
                  Out "[ERROR] Failed: 'documentation_dir'";
                  Did (Makedirs (sd // "logs"));
                  Did (OpenW report);
                  Out ("[ERROR] Crash report saved: " +:+ report)] ∧
     stays_in_system_check st st') ∧
  (∀ env' st0, (run env' st0).1 ≠ 0%Z ∧
               stays_in_system_check st0 (run env' st0).2) ∧
  (∀ env' st0 name out orig v n,
     (generate_documentation (OUTPUT_CONFIG (SCRIPT_DIR env')) env'
        name out orig v n st0).1
     = Raise (Exn KeyError "'documentation_dir'" "generate_documentation")).
Proof.
  intros Hff Ha He sd cfg report.
  split; [apply output_config_dom|]. split; [|split; [|split]].
  - intros st0.
    by rewrite (check_system_key_error cfg env st0 (sd // "Models")
                  (output_config_models _) (output_config_documentation _)
                  (Hff _) (Hff _)).
  - assert (Hb : main_body cfg env st
                 = (Raise documentation_key_error,
                    mkState (made (fs st) (sd // "Models")) (S (ticks st))
                      ((trace st ++ opening env st) ++ system_check_report env ++
                       [Did (Makedirs (sd // "Models"))]))).
    { rewrite (main_body_preflight cfg env st s p Ha He). unfold bind at 1.
      by rewrite (check_system_key_error cfg env _ (sd // "Models")
                    (output_config_models _) (output_config_documentation _)
                    (Hff _) (Hff _)). }
    pose proof (main_exception_reported cfg env st _ _ _ _ (sd // "logs") Hb
                  (output_config_logs _) (Hff _) (Hff _)) as Hm.
    cbn [fs ticks trace] in Hm.
    rewrite (error_context_argv env s p Ha) in Hm.
    eexists. split; [|split; [|split]].
    + unfold run. fold sd cfg. rewrite Hm. reflexivity.
    + cbn [fs]. apply fs_lookup_set_eq.
    + cbn [trace]. by rewrite <- !app_assoc.
    + pose proof (run_never_completes env st) as [_ Hq].
      unfold run in Hq. fold sd cfg in Hq. rewrite Hm in Hq. exact Hq.
  - intros env' st0. destruct (run_never_completes env' st0) as [[H | H] Hq];
      (split; [by rewrite H | exact Hq]).
  - intros. apply generate_documentation_key_error, output_config_documentation.
Qed.

Lemma check_system_key_error_aborts_run_witness :
  (check_system (OUTPUT_CONFIG ".") env_base st_base).1
  = Raise documentation_key_error ∧
  (run env_base st_base).1 = 1%Z ∧
  fs_exists (fs (run env_base st_base).2)
    "logs/crash_report_finetune_model_2025-03-09_14-05-07.log" = true.
Proof.
  destruct (check_system_key_error_aborts_run env_base st_base
              "finetune_model.py" "Models/base") as (_ & H1 & _).
  - intros o. reflexivity.
  - reflexivity.
  - vm_compute. reflexivity.
  - split; [apply H1|]. split; vm_compute; reflexivity.
Defined.

(** ** Past the system check, for a configuration that defines its keys *)

Section Configured.
Context (cfg : gmap string path) (env : Env) (dm dd : path).
Hypothesis Hdm : cfg !! "models_dir" = Some dm.
Hypothesis Hdd : cfg !! "documentation_dir" = Some dd.

Lemma check_system_ok st :
  fault env CudaDeviceName = None →
  fault env (Makedirs dm) = None →
  fault env (Makedirs dd) = None →
  check_system cfg env st
  = (Ok tt, mkState (made (made (fs st) dm) dd) (ticks st)
                    (trace st ++ system_check_done env dm dd)).
Proof.
  intros Hc H1 H2. unfold check_system, subscript. rewrite Hdm, Hdd.
  unfold system_check_done, system_check_report, banner, made.
  destruct (cuda_is_available env); step_m; rewrite ?Hc, H1; step_m;
    rewrite H2; step_m; by rewrite <- !app_assoc.
Qed.

Lemma main_body_declined st s p :
  fault_free env →
  argv env = [s; p] →
  os_path_exists (fs st) p = true →
  cuda_is_available env = false →
  Str.lower (operator_response env) ≠ "y" →
  main_body cfg env st = (Raise (SystemExit 0), after_prompt env dm dd st).
Proof.
  intros Hff Ha He Hcuda Hno.
  rewrite (main_body_preflight cfg env st s p Ha He).
  unfold bind at 1. rewrite (check_system_ok _ (Hff _) (Hff _) (Hff _)).
  unfold after_prompt, prompt_events. rewrite Hcuda. step_m.
  rewrite (Hff Input). step_m.
  destruct (String.eqb_spec (Str.lower (operator_response env)) "y"); [done|].
  cbn [negb fs ticks trace]. by rewrite <- !app_assoc.
Qed.

End Configured.

(** With the documentation directory configured, a run without accelerator
    shows the prompt, and a declining operator ends it with status 0 before
    any dataset is loaded. *)
Lemma main_declined cfg env st s p dm dd :
  cfg !! "models_dir" = Some dm →
  cfg !! "documentation_dir" = Some dd →
  fault_free env →
  argv env = [s; p] →
  os_path_exists (fs st) p = true →
  cuda_is_available env = false →
  Str.lower (operator_response env) ≠ "y" →
  main cfg env st = (Raise (SystemExit 0), after_prompt env dm dd st) ∧
  Out "Continue anyway? (y/n): " ∈ trace (after_prompt env dm dd st) ∧
  fs (after_prompt env dm dd st) = made (made (fs st) dm) dd.
Proof.
  intros Hdm Hdd Hff Ha He Hc Hno. split; [|split].
  - apply main_system_exit. by eapply main_body_declined.
  - unfold after_prompt, prompt_events. rewrite Hc. cbn [trace].
    rewrite !elem_of_app. right. right. right.
    apply elem_of_cons. right. apply elem_of_cons. by left.
  - reflexivity.
Qed.

(** C8, on the source as it is: no accelerator, an operator who would
    answer [n], an existing base-model path.  The run ends with status 1,
    not 0, and the prompt is never shown: [check_system] has raised before
    (the defect of C1). *)
Theorem no_accelerator_prompt_not_reached :
  cuda_is_available env_base = false ∧
  operator_response env_base = "n" ∧
  os_path_exists (fs st_base) "Models/base" = true ∧
  (run env_base st_base).1 = 1%Z ∧
  Forall (fun ev => beyond_system_check ev = false) (trace (run env_base st_base).2) ∧
  (main (cfg_with_docs ".") env_base st_base).1 = Raise (SystemExit 0).
Proof.
  split; [reflexivity|]. split; [reflexivity|]. split; [reflexivity|].
  split; [vm_compute; reflexivity|]. split.
  - vm_compute. repeat constructor.
  - vm_compute. reflexivity.
Qed.

(** ** Pre-flight failures *)




Lemma fs_lookup_made_ne fs d q : q ≠ d → fs_lookup (made fs d) q = fs_lookup fs q.
Proof.
  intros Hq. unfold made. destruct (fs_exists fs d); [done|].
  by apply fs_lookup_set_ne.
Qed.







(** ** The licensing step *)

Section License.
Context (cfg : gmap string path) (env : Env) (d : path).
Hypothesis Hd : cfg !! "crash_reports_dir" = Some d.

(** When the licensing step returns, it has done one of two things, and
    which one is decided by the presence of [LICENSE] in the source. *)
Lemma copy_license_or_log_inv p out st st' :
  copy_license_or_log cfg env p out st = (Ok tt, st') →
  (fs_exists (fs st) (Path p // "LICENSE") = true ∧
   (∃ c, fs_lookup (fs st) (Path p // "LICENSE") = Some (File c) ∧
         fs st' = fs_set (fs st) (out // "LICENSE") (File c)) ∧
   trace st' = trace st ++ license_copied p out ∧
   ticks st' = ticks st)
  ∨
  (fs_exists (fs st) (Path p // "LICENSE") = false ∧
   fs_lookup (fs st') (missing_license_log d (clock env (ticks st)))
   = Some (File (Text (missing_license_text (clock env (S (ticks st))) p out))) ∧
   (∀ q, q ≠ missing_license_log d (clock env (ticks st)) → q ≠ d →
         fs_lookup (fs st') q = fs_lookup (fs st) q) ∧
   trace st' = trace st ++ license_logged d (clock env (ticks st)) ∧
   ticks st' = S (S (ticks st))).
Proof.
  unfold copy_license_or_log, subscript. rewrite Hd.
  unfold bind at 1. unfold path_exists at 1. cbn [fs].
  destruct (fs_exists (fs st) (Path p // "LICENSE")) eqn:He.
  - intros H. left. split; [done|]. revert H.
    unfold shutil_copy2.
    destruct (fault env (Copy2 (Path p // "LICENSE") (out // "LICENSE")));
      [absurd_run|].
    unfold bind at 1.
    destruct (fs_lookup (fs st) (Path p // "LICENSE")) as [[|c]|] eqn:El;
      try absurd_run.
    step_m. intros [= <-]. cbn [fs ticks trace].
    repeat split; eauto. by rewrite <- app_assoc.
  - intros H. right. split; [done|]. revert H.
    step_m.
    destruct (fault env (Makedirs d)); [absurd_run|].
    step_m. fold (missing_license_log d (clock env (ticks st))).
    destruct (fault env (OpenW (missing_license_log d (clock env (ticks st)))));
      [absurd_run|].
    step_m. intros [= <-]. cbn [fs ticks trace].
    repeat split.
    + apply fs_lookup_set_eq.
    + intros q Hq1 Hq2. rewrite !fs_lookup_set_ne by done.
      destruct (fs_exists (fs st) d); [done|]. by rewrite fs_lookup_set_ne.
    + unfold license_logged. by rewrite <- !app_assoc.
Qed.

End License.

(** ** Training and packaging *)

Lemma train_model_inv cfg env m tok ds name v st out st' dm :
  cfg !! "models_dir" = Some dm →
  train_model cfg env m tok ds name v st = (Ok out, st') →
  out = dm // (name +:+ "_ft_" +:+ v) ∧
  ∃ st2,
    match argv env with
    | _ :: p :: _ =>
        if String.eqb p "" then st2 = packaged st out
        else copy_license_or_log cfg env p out (packaged st out) = (Ok tt, st2)
    | _ => st2 = packaged st out
    end ∧
    fs st' = fs_set (fs_set (fs st2) (out // "finetuning_config.json") (File (Text "")))
               (out // "finetuning_config.json")
               (File (Text (finetuning_config_json env v (clock env (ticks st2))))) ∧
    trace st' = trace st2 ++ descriptor_written out.
Proof.
  intros Hdm. unfold train_model, subscript. rewrite Hdm.
  unfold save_pretrained. step_m.
  set (o := dm // (name +:+ "_ft_" +:+ v)).
  destruct (fault env (TrainerInit o)); [absurd_run|]. step_m.
  destruct (fault env Train); [absurd_run|]. step_m.
  destruct (fault env (SaveModel o)); [absurd_run|]. step_m.
  destruct (fault env (SaveTokenizer o)); [absurd_run|]. step_m.
  rewrite <- !app_assoc. cbn [app].
  change (trace st ++ _) with (trace (packaged st o)).
  change (save_fs _ o tokenizer_files) with (fs (packaged st o)).
  change (ticks st) with (ticks (packaged st o)).
  rewrite (state_eta (packaged st o)).
  assert (Hfinish : ∀ st2,
    (let (r, st'0) := open_w env (o // "finetuning_config.json") st2 in
     match r with
     | Ok _ =>
         (Ok o,
          mkState
            (fs_set (fs st'0) (o // "finetuning_config.json")
               (File (Text (finetuning_config_json env v (clock env (ticks st'0))))))
            (S (ticks st'0))
            (trace st'0 ++ [Out ("[SUCCESS] " +:+ "Model saved: " +:+ o)]))
     | Raise e => (Raise e, st'0)
     end) = (Ok out, st') →
    out = o ∧
    fs st' = fs_set (fs_set (fs st2) (o // "finetuning_config.json") (File (Text "")))
               (o // "finetuning_config.json")
               (File (Text (finetuning_config_json env v (clock env (ticks st2))))) ∧
    trace st' = trace st2 ++ descriptor_written o).
  { intros st2. unfold open_w.
    destruct (fault env (OpenW (o // "finetuning_config.json")));
      [absurd_run|].
    intros [= <- <-]. cbn [fs ticks trace]. repeat split.
    unfold descriptor_written. by rewrite <- app_assoc. }
  destruct (argv env) as [|a [|p rest]]; cbn [length Nat.ltb Nat.leb nth].
  - intros H. apply Hfinish in H as (-> & H1 & H2).
    split; [done|]. by exists (packaged st o).
  - intros H. apply Hfinish in H as (-> & H1 & H2).
    split; [done|]. by exists (packaged st o).
  - destruct (String.eqb p "") eqn:Ep; cbn [negb].
    + intros H. apply Hfinish in H as (-> & H1 & H2).
      split; [done|]. by exists (packaged st o).
    + destruct (copy_license_or_log cfg env p o (packaged st o))
        as [[[]|e] st2] eqn:Hl; [|intros H; discriminate H].
      intros H. apply Hfinish in H as (-> & H1 & H2).
      split; [done|]. by exists st2.
Qed.

(** *** Telling the license, the log and the descriptor apart by their names *)
















(** ** Crash reports *)

Lemma format_exc_nonempty c msg origin :
  Str.startswith "Traceback (most recent call last):" (format_exc (Exn c msg origin))
  = true.
Proof. apply startswith_app. Qed.

(** An [Exception] can only leave the body of [main] in a process that
    was given exactly one argument, naming an existing path: the two checks
    before end with [SystemExit]. *)
Lemma main_body_exception_argv cfg env st c msg origin st1 :
  main_body cfg env st = (Raise (Exn c msg origin), st1) →
  ∃ s p, argv env = [s; p] ∧ os_path_exists (fs st) p = true.
Proof.
  intros Hb.
  destruct (length (argv env) =? 2) eqn:El.
  - apply Nat.eqb_eq in El.
    destruct (argv env) as [|s [|p [|]]] eqn:Ha; try done.
    exists s, p. split; [done|].
    destruct (os_path_exists (fs st) p) eqn:He; [done|].
    revert Hb. unfold main_body. rewrite Ha. cbn [length nth Nat.eqb negb].
    step_m. rewrite He. step_m. intros H. discriminate H.
  - revert Hb. unfold main_body. rewrite El. step_m. intros H. discriminate H.
Qed.

(** C6, as amended: when a stage of the pipeline raises an [Exception]
    (not [SystemExit], not an interruption) and the report directory can be
    written, the top-level handler writes exactly one file,
    [crash_report_finetune_model_<timestamp>.log] in the report directory,
    and touches nothing else.  After it the file holds this report and
    nothing more, whatever it held before: the context line
    [Context: Model: <base-model path>], the same for every stage, and the
    traceback of the exception, which is not empty.  The name is the
    timestamp to the second: a later report takes the same file exactly
    when its timestamp falls into the same second, and then an earlier
    report under that name is replaced by the later one. *)
Theorem crash_report_per_failure (cfg : gmap string path) (env : Env)
    (st st1 : State) (c : exn_class) (msg origin : string) (d : path) :
  main_body cfg env st = (Raise (Exn c msg origin), st1) →
  cfg !! "crash_reports_dir" = Some d →
  let t := clock env (ticks st1) in
  let report := d // crash_report_name (strftime_file t) in
  fault env (Makedirs d) = None →
  fault env (OpenW report) = None →
  ∃ st2 s p text,
    main cfg env st = (Raise (SystemExit 1), st2) ∧
    trace st2 = trace st1 ++
                [Out ("[ERROR] Failed: " +:+ msg); Did (Makedirs d);
                 Did (OpenW report);
                 Out ("[ERROR] Crash report saved: " +:+ report)] ∧
    argv env = [s; p] ∧
    text = crash_report_text env (clock env (S (ticks st1))) (Exn c msg origin)
             ("Model: " +:+ p) ∧
    fs_lookup (fs st2) report = Some (File (Text text)) ∧
    (∀ q, q ≠ report → q ≠ d → fs_lookup (fs st2) q = fs_lookup (fs st1) q) ∧
    Str.contains ("Context: Model: " +:+ p +:+ nl) text = true ∧
    Str.contains (format_exc (Exn c msg origin)) text = true ∧
    Str.startswith "Traceback (most recent call last):"
      (format_exc (Exn c msg origin)) = true ∧
    (∀ t', valid_datetime t → valid_datetime t' →
       d // crash_report_name (strftime_file t') = report ↔ to_second t' = to_second t) ∧
    (∀ t0 old, valid_datetime t → valid_datetime t0 →
       to_second t0 = to_second t →
       fs_lookup (fs st1) (d // crash_report_name (strftime_file t0)) = Some old →
       fs_lookup (fs st2) (d // crash_report_name (strftime_file t0))
       = Some (File (Text text))).
Proof.
  intros Hb Hd t report Hmk Ho.
  pose proof (main_exception_reported cfg env st c msg origin st1 d Hb Hd Hmk Ho) as Hm.
  destruct (main_body_exception_argv cfg env st c msg origin st1 Hb) as (s & p & Ha & _).
  rewrite (error_context_argv env s p Ha) in Hm.
  eexists. exists s, p. eexists. split; [exact Hm|]. cbn [fs trace].
  split; [reflexivity|]. split; [exact Ha|]. split; [reflexivity|].
  split; [apply fs_lookup_set_eq|].
  split; [|split; [|split; [|split; [|split]]]].
  - intros q Hq1 Hq2. rewrite !fs_lookup_set_ne by done.
    by apply fs_lookup_made_ne.
  - unfold crash_report_text.
    change (String.eqb ("Model: " +:+ p) "") with false. cbn iota.
    change ("Context: Model: " +:+ p +:+ nl)
      with ("Context: " +:+ ("Model: " +:+ p) +:+ nl).
    find_group.
  - unfold crash_report_text. find_piece.
  - apply format_exc_nonempty.
  - intros t' V V'. by apply crash_report_path_second.
  - intros t0 old V V0 Hsec _.
    rewrite (proj2 (crash_report_path_second d t0 t V0 V) Hsec).
    apply fs_lookup_set_eq.
Qed.

Lemma crash_report_per_failure_witness :
  ∃ st2 text,
    main (OUTPUT_CONFIG ".") env_base st_base = (Raise (SystemExit 1), st2) ∧
    fs_lookup (fs st2) "logs/crash_report_finetune_model_2025-03-09_14-05-07.log"
    = Some (File (Text text)) ∧
    Str.contains ("Context: Model: Models/base" +:+ nl) text = true.
Proof.
  destruct (crash_report_per_failure (OUTPUT_CONFIG ".") env_base st_base
              (main_body (OUTPUT_CONFIG ".") env_base st_base).2
              KeyError "'documentation_dir'" "check_system" "logs")
    as (st2 & s & p & text & H1 & _ & Ha & _ & H3 & _ & H5 & _).
  - vm_compute. reflexivity.
  - reflexivity.
  - reflexivity.
  - reflexivity.
  - injection Ha as _ <-.
    exists st2, text. split; [exact H1|]. split; [exact H3 | exact H5].
Defined.

(** The stage that fails does not show in the context line: a failure of
    the dataset loader and a failure of the training engine are reported
    under the same label. *)
Example crash_context_is_the_model_path :
  let report := "logs/crash_report_finetune_model_2025-03-09_14-05-07.log" in
  let st_load :=
    (main (cfg_with_docs ".") (with_fault env_gpu fail_at_load) st_unlicensed).2 in
  let st_train :=
    (main (cfg_with_docs ".") (with_fault env_gpu fail_at_train) st_unlicensed).2 in
  (∃ text, fs_lookup (fs st_load) report = Some (File (Text text)) ∧
           Str.contains ("Context: Model: Models/base" +:+ nl) text = true ∧
           Str.contains "in load_dataset" text = true) ∧
  (∃ text, fs_lookup (fs st_train) report = Some (File (Text text)) ∧
           Str.contains ("Context: Model: Models/base" +:+ nl) text = true ∧
           Str.contains "in trainer.train" text = true).
Proof.
  split; eexists; (split; [vm_compute; reflexivity|]); split; vm_compute; reflexivity.
Qed.

(** C6 as stated fails: two failures in succession, of runs on two
    different base models, whose timestamps fall into the same second.
    The second report takes the file of the first: one report file is left
    for two failures, and the report of the first run is gone. *)
Lemma crash_report_overwritten_counterexample :
  let report := "logs/crash_report_finetune_model_2025-03-09_14-05-07.log" in
  let first := run env_base st_two_models in
  let second := run env_other first.2 in
  first.1 = 1%Z ∧ second.1 = 1%Z ∧
  clock env_base (ticks st_two_models + 1) ≠ clock env_other (ticks first.2 + 1) ∧
  (∃ text, fs_lookup (fs first.2) report = Some (File (Text text)) ∧
           Str.contains "Context: Model: Models/base" text = true) ∧
  (∃ text, fs_lookup (fs second.2) report = Some (File (Text text)) ∧
           Str.contains "Context: Model: Models/base" text = false ∧
           Str.contains "Context: Model: Models/other" text = true) ∧
  glob_suffix (fs second.2) "logs" ".log" = [report].
Proof.
  intros report first second.
  split; [vm_compute; reflexivity|]. split; [vm_compute; reflexivity|].
  split; [vm_compute; discriminate|].
  split; [eexists; split; vm_compute; reflexivity|].
  split; [eexists; split; [|split]; vm_compute; reflexivity|].
  vm_compute. reflexivity.
Qed.

(** ** Documentation *)








(** ** A complete run, for a configuration that defines its keys

    Scenario A of the specification under [cfg_with_docs]: one corpus file,
    a machine with an accelerator, no fault.  The run
    reaches the closing header, the artifact directory holds weights,
    tokenizer and descriptor, and the documentation gives the size of the
    dataset. *)
Example configured_run_completes :
  let r := main (cfg_with_docs ".") env_gpu st_unlicensed in
  r.1 = Ok tt ∧
  printed ("  Complete " +:+ check_mark) (trace r.2) = true ∧
  fs_exists (fs r.2) "Models/base_ft_v1/adapter_model.safetensors" = true ∧
  fs_exists (fs r.2) "Models/base_ft_v1/tokenizer.json" = true ∧
  fs_exists (fs r.2) "Models/base_ft_v1/finetuning_config.json" = true ∧
  fs_exists (fs r.2) "Models/base_ft_v1/LICENSE" = false ∧
  fs_exists (fs r.2) "logs/missing_license_2025-03-09_14-05-07.log" = true ∧
  (∃ text, fs_lookup (fs r.2) "docs/base_ft_v1.md" = Some (File (Text text)) ∧
           Str.contains "- **Examples**: 2" text = true).
Proof.
  intros r. repeat split; try (vm_compute; reflexivity).
  eexists. split; vm_compute; reflexivity.
Qed.

(** * Further properties of the script *)

(** ** Exit statuses *)

Lemma exits_ret {A} S (a : A) : exits_within S (ret a).
Proof. intros st c st' H. discriminate H. Qed.

Lemma exits_bind {A B} S (m : M A) (k : A → M B) :
  exits_within S m → (∀ a, exits_within S (k a)) → exits_within S (bind m k).
Proof.
  intros Hm Hk st c st'. unfold bind.
  destruct (m st) as [[a|e] st1] eqn:E.
  - apply Hk.
  - intros [= -> ->]. eapply Hm. exact E.
Qed.

Lemma exits_failure {A} S f origin : exits_within S (raise (A:=A) (exn_of_failure f origin)).
Proof. intros st c st' [= H _]. by destruct f. Qed.

Lemma exits_exn {A} S cl msg origin : exits_within S (raise (A:=A) (Exn cl msg origin)).
Proof. intros st c st' H. discriminate H. Qed.

Lemma exits_sys_exit {A} (S : Z → Prop) code : S code → exits_within S (sys_exit (A:=A) code).
Proof. intros HS st c st' [= <- _]. exact HS. Qed.

Lemma exits_print S line : exits_within S (print line).
Proof. intros st c st' H. discriminate H. Qed.

Lemma exits_print_header S text : exits_within S (print_header text).
Proof. intros st c st' H. discriminate H. Qed.

Lemma exits_now S env : exits_within S (now env).
Proof. intros st c st' H. discriminate H. Qed.

Lemma exits_f_write S p c : exits_within S (f_write p c).
Proof. intros st code st' H. discriminate H. Qed.

Lemma exits_path_exists S p : exits_within S (path_exists p).
Proof. intros st c st' H. discriminate H. Qed.

Lemma exits_os_path_exists S p : exits_within S (os_path_exists_m p).
Proof. intros st c st' H. discriminate H. Qed.

Lemma exits_glob S d suffix : exits_within S (glob d suffix).
Proof. intros st c st' H. discriminate H. Qed.

Lemma exits_perform S env o : exits_within S (perform env o).
Proof.
  unfold perform. destruct (fault env o); [apply exits_failure|].
  intros st c st' H. discriminate H.
Qed.

Lemma exits_os_makedirs S env p : exits_within S (os_makedirs env p).
Proof.
  unfold os_makedirs. destruct (fault env (Makedirs p)); [apply exits_failure|].
  intros st c st' H. discriminate H.
Qed.

Lemma exits_open_w S env p : exits_within S (open_w env p).
Proof.
  unfold open_w. destruct (fault env (OpenW p)); [apply exits_failure|].
  intros st c st' H. discriminate H.
Qed.

Lemma exits_shutil_copy2 S env src dst : exits_within S (shutil_copy2 env src dst).
Proof.
  unfold shutil_copy2. destruct (fault env (Copy2 src dst)); [apply exits_failure|].
  intros st c st'. destruct (fs_lookup (fs st) src) as [[|?]|]; intros H; discriminate H.
Qed.

Lemma exits_save_pretrained S env o out files :
  exits_within S (save_pretrained env o out files).
Proof.
  unfold save_pretrained. destruct (fault env o); [apply exits_failure|].
  intros st c st' H. discriminate H.
Qed.

Lemma exits_subscript S d k origin : exits_within S (subscript d k origin).
Proof. unfold subscript. destruct (d !! k); [apply exits_ret | apply exits_exn]. Qed.

Lemma exits_for_each {A} S (l : list A) (f : A → M unit) :
  (∀ x, exits_within S (f x)) → exits_within S (for_each l f).
Proof.
  intros Hf. induction l as [|x l IH]; simpl; [apply exits_ret|].
  apply exits_bind; [apply Hf | intros _; exact IH].
Qed.

Lemma tokenize_function_raises tok texts e :
  tokenize_function tok texts = Raise e → ∃ msg origin, e = Exn ValueError msg origin.
Proof.
  unfold tokenize_function, tokenizer_call.
  destruct (pad_token tok); [done|]. intros [= <-]. eauto.
Qed.

Lemma map_batches_raises {A B} (f : list A → res (list B)) bs e :
  map_batches f bs = Raise e → ∃ b, f b = Raise e.
Proof.
  induction bs as [|b bs IH]; [done|]. cbn [map_batches].
  destruct (f b) as [r|e'] eqn:E; [|intros [= <-]; eauto].
  destruct (map_batches f bs); [done|]. intros [= <-]. by apply IH.
Qed.

Lemma exits_lift_tokenize S tok texts :
  exits_within S (lift (map_batched (tokenize_function tok) texts)).
Proof.
  intros st c st' [= H _]. apply map_batches_raises in H as [b H].
  apply tokenize_function_raises in H as (? & ? & ?). done.
Qed.

(** Solve [exits_within] goals along the structure of the code. *)
Ltac exits_step :=
  first
    [ apply exits_bind; [|intros ?]
    | apply exits_ret | apply exits_print | apply exits_print_header
    | apply exits_now | apply exits_f_write | apply exits_path_exists
    | apply exits_os_path_exists | apply exits_glob | apply exits_perform
    | apply exits_os_makedirs | apply exits_open_w | apply exits_shutil_copy2
    | apply exits_save_pretrained | apply exits_subscript
    | apply exits_lift_tokenize
    | apply exits_for_each; intros ?
    | match goal with
      | |- exits_within _ (if ?b then _ else _) => destruct b
      | |- exits_within _ (match ?x with Some _ => _ | None => _ end) => destruct x
      end ].

Ltac exits_auto := repeat exits_step.

Lemma exits_write_crash_report S cfg env e ctx :
  exits_within S (write_crash_report cfg env e ctx).
Proof. unfold write_crash_report. exits_auto. Qed.

Lemma exits_check_system S cfg env : exits_within S (check_system cfg env).
Proof.
  unfold check_system, print_info, print_success. exits_auto.
Qed.

Lemma exits_copy_license_or_log S cfg env p out :
  exits_within S (copy_license_or_log cfg env p out).
Proof.
  unfold copy_license_or_log, print_success, print_warning. exits_auto.
Qed.

Lemma exits_load_dataset S env files : exits_within S (load_dataset env files).
Proof.
  intros st c st' H.
  destruct (load_dataset_raises env files st _ st' H) as [Hne _]. by destruct (Hne c).
Qed.

Lemma exits_load_training_data cfg env v :
  exits_within (fun code => code = 1%Z) (load_training_data cfg env v).
Proof.
  unfold load_training_data, print_info, print_success, print_error.
  repeat first [ apply exits_load_dataset | apply exits_sys_exit; reflexivity | exits_step ].
Qed.

Lemma exits_setup_model_and_tokenizer S env p :
  exits_within S (setup_model_and_tokenizer env p).
Proof. unfold setup_model_and_tokenizer, print_success. exits_auto. Qed.

Lemma exits_prepare_dataset S env ds tok : exits_within S (prepare_dataset env ds tok).
Proof.
  unfold prepare_dataset, print_success.
  repeat first [ apply exits_exn | exits_step ].
Qed.

Lemma exits_train_model S cfg env m tok ds name v :
  exits_within S (train_model cfg env m tok ds name v).
Proof.
  unfold train_model, print_info, print_success.
  repeat first [ apply exits_copy_license_or_log | exits_step ].
Qed.

Lemma exits_generate_documentation S cfg env name out orig v n :
  exits_within S (generate_documentation cfg env name out orig v n).
Proof. unfold generate_documentation, print_success. exits_auto. Qed.

Lemma exits_weaken {A} (S T : Z → Prop) (m : M A) :
  (∀ c, S c → T c) → exits_within S m → exits_within T m.
Proof. intros HST Hm st c st' H. apply HST. by apply (Hm st c st'). Qed.

Lemma exits_input S env prompt : exits_within S (input env prompt).
Proof. unfold input. exits_auto. Qed.

Lemma exits_bind_returns {A B} S (P : A → Prop) (m : M A) (k : A → M B) :
  returns P m → exits_within S m → (∀ a, P a → exits_within S (k a)) →
  exits_within S (bind m k).
Proof.
  intros Hr Hm Hk st c st'. unfold bind.
  destruct (m st) as [[a|e] st1] eqn:E.
  - apply Hk. by apply (Hr st a st1).
  - intros [= -> ->]. eapply Hm. exact E.
Qed.

Lemma input_returns env prompt :
  returns (fun r => r = operator_response env) (input env prompt).
Proof.
  intros st a st'. unfold input, perform. step_m.
  destruct (fault env Input); step_m; [intros H; discriminate H|].
  by intros [= <- _].
Qed.

Lemma exits_main_body cfg env :
  exits_within (fun code => code = 1%Z ∨ (code = 0%Z ∧ declines env))
               (main_body cfg env).
Proof.
  unfold main_body, print_info, print_success, print_error, print_warning.
  apply exits_bind; [exits_auto|intros _].
  apply exits_bind; [exits_auto|intros t].
  apply exits_bind; [exits_auto|intros _].
  apply exits_bind.
  { destruct (negb _); [|exits_auto].
    repeat first [ apply exits_sys_exit; by left | exits_step ]. }
  intros _. apply exits_bind; [exits_auto|intros found].
  apply exits_bind.
  { destruct (negb found); [|exits_auto].
    repeat first [ apply exits_sys_exit; by left | exits_step ]. }
  intros _. apply exits_bind; [apply exits_check_system|intros _].
  apply exits_bind.
  { destruct (cuda_is_available env) eqn:Hc; cbn [negb]; [exits_auto|].
    apply exits_bind; [exits_auto|intros _].
    eapply exits_bind_returns; [apply input_returns | apply exits_input |].
    intros response ->.
    destruct (String.eqb_spec (Str.lower (operator_response env)) "y");
      cbn [negb]; [exits_auto|].
    apply exits_sys_exit. right. by repeat split. }
  intros _.
  apply exits_bind;
    [eapply exits_weaken; [|apply exits_load_training_data]; intros c ->; by left|].
  intros dataset.
  apply exits_bind; [apply exits_setup_model_and_tokenizer|intros loaded].
  apply exits_bind; [apply exits_prepare_dataset|intros prepared].
  apply exits_bind; [apply exits_train_model|intros out].
  apply exits_bind; [apply exits_generate_documentation|intros _].
  exits_auto.
Qed.

Lemma main_outcome cfg env st r st' :
  main cfg env st = (r, st') →
  (r = Ok tt ∧ (main_body cfg env st).1 = Ok tt) ∨
  (r = Raise (SystemExit 0) ∧ declines env) ∨
  exit_status r = 1%Z ∨ exit_status r = 130%Z.
Proof.
  unfold main, try_except.
  destruct (main_body cfg env st) as [[[]|e] st1] eqn:Hb.
  - intros [= <- _]. by left.
  - destruct e as [c msg origin | code |]; cbn [main_handler].
    + unfold bind, print_error, print, emit.
      destruct (write_crash_report cfg env _ _ _) as [[p|e'] st2] eqn:Hw.
      * intros [= <- _]. right. right. by left.
      * intros [= <- _]. destruct e' as [? ? ? | code |]; cbn.
        -- right. right. by left.
        -- by destruct (exits_write_crash_report (fun _ => False) _ _ _ _ _ _ _ Hw).
        -- right. right. by right.
    + intros [= <- _].
      destruct (exits_main_body cfg env st code st1 Hb) as [-> | [-> Hd]].
      * right. right. by left.
      * right. by left.
    + step_m. intros [= <- _]. right. right. by right.
Qed.

(** X1: whatever the configuration, the arguments, the store and the
    faults, [main] ends in one of three ways the interpreter reports as
    status 0, 1 or 130.  Status 0 is reported only when the body of [main]
    ran to its end, or when the operator declined the no-accelerator
    prompt; a failure never ends with status 0. *)
Theorem exit_status_meaning (cfg : gmap string path) (env : Env) (st : State) :
  let r := (main cfg env st).1 in
  (exit_status r = 0%Z ∨ exit_status r = 1%Z ∨ exit_status r = 130%Z) ∧
  (exit_status r = 0%Z →
     (r = Ok tt ∧ (main_body cfg env st).1 = Ok tt) ∨
     (r = Raise (SystemExit 0) ∧ declines env)).
Proof.
  intros r. subst r.
  destruct (main cfg env st) as [r st'] eqn:Hm. cbn [fst].
  destruct (main_outcome cfg env st r st' Hm) as [[-> H] | [[-> H] | [H | H]]].
  - split; [by left|]. intros _. by left.
  - split; [by left|]. intros _. by right.
  - rewrite H. split; [right; by left | done].
  - rewrite H. split; [right; by right | done].
Qed.

(** X2: when the operator interrupts the body of [main], the handler
    prints one warning and ends the process with status 130.  No crash
    report is written: the store and the clock are left as they were at the
    interruption. *)
Theorem interrupt_exits_130 (cfg : gmap string path) (env : Env) (st st1 : State) :
  main_body cfg env st = (Raise KeyboardInterrupt, st1) →
  ∃ st2, main cfg env st = (Raise (SystemExit 130), st2) ∧
         exit_status (main cfg env st).1 = 130%Z ∧
         fs st2 = fs st1 ∧ ticks st2 = ticks st1 ∧
         trace st2 = trace st1 ++ [Out ("[WARNING] " +:+ nl +:+ "Interrupted by user")].
Proof.
  intros Hb. unfold main, try_except. rewrite Hb. cbn [main_handler].
  step_m. eexists. by repeat split.
Qed.

Lemma interrupt_exits_130_witness :
  let env := with_fault env_base interrupt_at_makedirs in
  (run env st_base).1 = 130%Z ∧
  ∃ st2, main (OUTPUT_CONFIG ".") env st_base = (Raise (SystemExit 130), st2) ∧
         fs st2 = fs st_base.
Proof.
  intros env.
  destruct (interrupt_exits_130 (OUTPUT_CONFIG ".") env st_base
              (main_body (OUTPUT_CONFIG ".") env st_base).2)
    as (st2 & H1 & _ & H3 & _).
  - vm_compute. reflexivity.
  - split; [vm_compute; reflexivity|]. exists st2. split; [exact H1|].
    rewrite H3. vm_compute. reflexivity.
Defined.

(** X3: a crash report is only ever written for a run that was given
    exactly one argument naming an existing path, so its context line is
    always [Model: <that path>]: the fallback label [Model: unknown] of the
    handler cannot occur. *)
Theorem crash_context_never_unknown (cfg : gmap string path) (env : Env)
    (st st1 : State) (c : exn_class) (msg origin : string) :
  main_body cfg env st = (Raise (Exn c msg origin), st1) →
  ∃ s p, argv env = [s; p] ∧
         os_path_exists (fs st) p = true ∧
         error_context env = "Model: " +:+ p.
Proof.
  intros Hb.
  destruct (length (argv env) =? 2) eqn:El.
  - apply Nat.eqb_eq in El.
    destruct (argv env) as [|s [|p [|]]] eqn:Ha; try done.
    exists s, p. split; [done|].
    destruct (os_path_exists (fs st) p) eqn:He.
    + split; [done|]. unfold error_context. by rewrite Ha.
    + revert Hb. unfold main_body. rewrite Ha. cbn [length nth Nat.eqb negb].
      step_m. rewrite He. step_m. intros H. discriminate H.
  - revert Hb. unfold main_body. rewrite El. step_m. intros H. discriminate H.
Qed.

Lemma crash_context_never_unknown_witness :
  error_context env_base = "Model: Models/base".
Proof.
  destruct (crash_context_never_unknown (OUTPUT_CONFIG ".") env_base st_base
              (main_body (OUTPUT_CONFIG ".") env_base st_base).2
              KeyError "'documentation_dir'" "check_system")
    as (s & p & Ha & _ & Hc).
  - vm_compute. reflexivity.
  - injection Ha as _ <-. exact Hc.
Defined.

(** ** What a run can change in the store *)

Lemma touches_keeps {A} P (m : M A) :
  (∀ st r st', m st = (r, st') → fs st' = fs st) → touches P m.
Proof. intros H st r st' Hm q _. by rewrite (H st r st' Hm). Qed.

Lemma touches_bind_returns {A B} P (R : A → Prop) (m : M A) (k : A → M B) :
  returns R m → touches P m → (∀ a, R a → touches P (k a)) → touches P (bind m k).
Proof.
  intros HR Hm Hk st r st'. unfold bind.
  destruct (m st) as [[a|e] st1] eqn:E.
  - intros H q Hq. rewrite (Hk a (HR _ _ _ E) _ _ _ H q Hq). by apply (Hm _ _ _ E).
  - intros [= <- <-] q Hq. by apply (Hm _ _ _ E).
Qed.

Lemma touches_bind {A B} P (m : M A) (k : A → M B) :
  touches P m → (∀ a, touches P (k a)) → touches P (bind m k).
Proof.
  intros Hm Hk. apply (touches_bind_returns P (fun _ => True)); [done | done | auto].
Qed.

Lemma touches_ret {A} P (a : A) : touches P (ret a).
Proof. apply touches_keeps. by intros st r st' [= _ <-]. Qed.

Lemma touches_raise {A} P e : touches P (raise (A:=A) e).
Proof. apply touches_keeps. by intros st r st' [= _ <-]. Qed.

Lemma touches_print P line : touches P (print line).
Proof. apply touches_keeps. by intros st r st' [= _ <-]. Qed.

Lemma touches_print_header P text : touches P (print_header text).
Proof. apply touches_keeps. by intros st r st' [= _ <-]. Qed.

Lemma touches_now P env : touches P (now env).
Proof. apply touches_keeps. by intros st r st' [= _ <-]. Qed.

Lemma touches_os_path_exists P p : touches P (os_path_exists_m p).
Proof. apply touches_keeps. by intros st r st' [= _ <-]. Qed.

Lemma touches_perform P env o : touches P (perform env o).
Proof.
  apply touches_keeps. unfold perform.
  destruct (fault env o); by intros st r st' [= _ <-].
Qed.

Lemma touches_os_makedirs (P : path → Prop) env p : P p → touches P (os_makedirs env p).
Proof.
  intros HP st r st'. unfold os_makedirs.
  destruct (fault env (Makedirs p)); intros [= _ <-] q Hq; [done|]. cbn [fs].
  destruct (fs_exists (fs st) p); [done|].
  apply fs_lookup_set_ne. by intros ->.
Qed.

Lemma touches_open_w (P : path → Prop) env p : P p → touches P (open_w env p).
Proof.
  intros HP st r st'. unfold open_w.
  destruct (fault env (OpenW p)); intros [= _ <-] q Hq; [done|]. cbn [fs].
  apply fs_lookup_set_ne. by intros ->.
Qed.

Lemma touches_f_write (P : path → Prop) p c : P p → touches P (f_write p c).
Proof.
  intros HP st r st' [= _ <-] q Hq. cbn [fs].
  apply fs_lookup_set_ne. by intros ->.
Qed.

Lemma subscript_returns (d : gmap string path) k origin :
  returns (fun v => d !! k = Some v) (subscript d k origin).
Proof.
  intros st a st'. unfold subscript. destruct (d !! k); [|intros H; discriminate H].
  by intros [= <- _].
Qed.

Lemma touches_subscript P d k origin : touches P (subscript d k origin).
Proof.
  unfold subscript. destruct (d !! k); [apply touches_ret | apply touches_raise].
Qed.

Lemma touches_check_system (P : path → Prop) cfg env :
  (∀ v, cfg !! "models_dir" = Some v → P v) →
  (∀ v, cfg !! "documentation_dir" = Some v → P v) →
  touches P (check_system cfg env).
Proof.
  intros Hm Hd. unfold check_system, print_info, print_success.
  apply touches_bind; [apply touches_print_header|intros _].
  apply touches_bind; [apply touches_print|intros _].
  apply touches_bind; [apply touches_print|intros _].
  apply touches_bind.
  { destruct (cuda_is_available env); [|apply touches_ret].
    apply touches_bind; [apply touches_perform | intros _; apply touches_print]. }
  intros _.
  eapply touches_bind_returns; [apply subscript_returns | apply touches_subscript|].
  intros v Hv. apply touches_bind; [apply touches_os_makedirs; auto|intros _].
  eapply touches_bind_returns; [apply subscript_returns | apply touches_subscript|].
  intros v' Hv'. apply touches_bind; [apply touches_os_makedirs; auto|intros _].
  apply touches_print.
Qed.

Lemma touches_write_crash_report (P : path → Prop) cfg env e ctx :
  (∀ v, cfg !! "crash_reports_dir" = Some v →
        P v ∧ ∀ t, P (v // crash_report_name (strftime_file t))) →
  touches P (write_crash_report cfg env e ctx).
Proof.
  intros HP. unfold write_crash_report, print_error.
  eapply touches_bind_returns; [apply subscript_returns | apply touches_subscript|].
  intros v Hv. apply touches_bind; [apply touches_os_makedirs, HP, Hv|intros _].
  apply touches_bind; [apply touches_now|intros t].
  eapply touches_bind_returns; [apply subscript_returns | apply touches_subscript|].
  intros v' Hv'. apply touches_bind; [apply touches_open_w, HP, Hv'|intros _].
  apply touches_bind; [apply touches_now|intros stamp].
  apply touches_bind; [apply touches_f_write, HP, Hv'|intros _].
  apply touches_bind; [apply touches_print | intros _; apply touches_ret].
Qed.

Lemma check_system_returns_nothing sd env :
  returns (fun _ => False) (check_system (OUTPUT_CONFIG sd) env).
Proof.
  intros st a st' H.
  destruct (check_system_never_returns sd env st) as (e & st1 & Hc & _).
  rewrite Hc in H. discriminate H.
Qed.

Lemma touches_main_body env :
  touches (run_may_touch (SCRIPT_DIR env))
          (main_body (OUTPUT_CONFIG (SCRIPT_DIR env)) env).
Proof.
  unfold main_body, print_info, print_error.
  apply touches_bind; [apply touches_print_header|intros _].
  apply touches_bind; [apply touches_now|intros t].
  apply touches_bind; [apply touches_print|intros _].
  apply touches_bind.
  { destruct (negb _); [|apply touches_ret].
    apply touches_bind; [apply touches_print|intros _].
    apply touches_bind; [apply touches_print | intros _; apply touches_raise]. }
  intros _. apply touches_bind; [apply touches_os_path_exists|intros found].
  apply touches_bind.
  { destruct (negb found); [|apply touches_ret].
    apply touches_bind; [apply touches_print | intros _; apply touches_raise]. }
  intros _.
  eapply touches_bind_returns; [apply check_system_returns_nothing| |by intros _ []].
  apply touches_check_system.
  - rewrite output_config_models. intros v [= <-]. by left.
  - by rewrite output_config_documentation.
Qed.

Lemma touches_try_except {A} P (body : M A) (handler : exn → option (M A)) :
  touches P body →
  (∀ e h, handler e = Some h → touches P h) →
  touches P (try_except body handler).
Proof.
  intros Hb Hh st r st'. unfold try_except.
  destruct (body st) as [[a|e] st1] eqn:E.
  - intros [= <- <-]. by apply (Hb _ _ _ E).
  - destruct (handler e) as [h|] eqn:Eh.
    + intros H q Hq. rewrite (Hh e h Eh _ _ _ H q Hq). by apply (Hb _ _ _ E).
    + intros [= <- <-]. by apply (Hb _ _ _ E).
Qed.

Lemma touches_main env :
  touches (run_may_touch (SCRIPT_DIR env)) (main (OUTPUT_CONFIG (SCRIPT_DIR env)) env).
Proof.
  apply touches_try_except; [apply touches_main_body|].
  intros [c msg origin | code |] h; cbn [main_handler]; intros [= <-].
  - unfold print_error.
    apply touches_bind; [apply touches_print|intros _].
    apply touches_bind; [|intros _; apply touches_raise].
    apply touches_write_crash_report. rewrite output_config_logs.
    intros v [= <-]. split; [right; by left|]. intros t. right. right. by exists t.
  - unfold print_warning.
    apply touches_bind; [apply touches_print | intros _; apply touches_raise].
Qed.

(** X4: a run of the script as it stands can change the store at three
    places only: the models directory, the report directory, and a crash
    report in it.  Whatever the arguments, the store and the faults, every
    other entry (the training data, the base model, artifacts of earlier
    runs) is after the run what it was before. *)
Theorem run_touches_only (env : Env) (st : State) (q : path) :
  q ≠ SCRIPT_DIR env // "Models" →
  q ≠ SCRIPT_DIR env // "logs" →
  (∀ t, q ≠ SCRIPT_DIR env // "logs" // crash_report_name (strftime_file t)) →
  fs_lookup (fs (run env st).2) q = fs_lookup (fs st) q.
Proof.
  intros H1 H2 H3.
  assert (Hq : ¬ run_may_touch (SCRIPT_DIR env) q).
  { intros [? | [? | [t ?]]]; [done | done | by apply (H3 t)]. }
  unfold run.
  destruct (main (OUTPUT_CONFIG (SCRIPT_DIR env)) env st) as [r st'] eqn:Hm.
  cbn [snd]. by apply (touches_main env _ _ _ Hm).
Qed.

Lemma run_touches_only_witness :
  fs_lookup (fs (run env_base st_corpus_ba).2) "training data/v1/a.jsonl"
  = Some (File (Records [ex_plain])).
Proof.
  rewrite (run_touches_only env_base st_corpus_ba "training data/v1/a.jsonl").
  - reflexivity.
  - discriminate.
  - discriminate.
  - intros t. discriminate.
Defined.

(** ** Report names and the order of time *)

Lemma string_compare_refl s : String.compare s s = Eq.
Proof.
  induction s as [|c s IH]; simpl; [done|].
  unfold Ascii.compare. by rewrite N.compare_refl.
Qed.

Lemma string_compare_app a x y :
  String.compare (a +:+ x) (a +:+ y) = String.compare x y.
Proof.
  induction a as [|c a IH]; [done|]. rewrite !app_cons. simpl.
  unfold Ascii.compare. by rewrite N.compare_refl.
Qed.

Lemma compare_digit a b :
  Ascii.compare (digit a) (digit b) = (a mod 10 ?= b mod 10)%N.
Proof.
  unfold Ascii.compare, digit.
  pose proof (N.mod_lt a 10 ltac:(done)). pose proof (N.mod_lt b 10 ltac:(done)).
  rewrite !N_ascii_embedding by lia.
  destruct (N.compare_spec (a mod 10) (b mod 10)) as [E | E | E].
  - rewrite E. apply N.compare_refl.
  - apply N.compare_lt_iff. lia.
  - apply N.compare_gt_iff. lia.
Qed.

(** Comparing two numbers below [base * base] digit pair by digit pair. *)
Lemma lex_div_mod base a b c :
  (0 < base)%N →
  lex (a / base ?= b / base)%N (lex (a mod base ?= b mod base)%N c)
  = lex (a ?= b)%N c.
Proof.
  intros Hbase.
  pose proof (N.div_mod a base ltac:(lia)) as Ha.
  pose proof (N.div_mod b base ltac:(lia)) as Hb.
  pose proof (N.mod_lt a base ltac:(lia)) as Hra.
  pose proof (N.mod_lt b base ltac:(lia)) as Hrb.
  revert Ha Hb Hra Hrb.
  generalize (a / base)%N (b / base)%N (a mod base)%N (b mod base)%N.
  intros qa qb ra rb Ha Hb Hra Hrb.
  destruct (N.compare_spec qa qb) as [E | E | E]; cbn [lex].
  - subst qb.
    destruct (N.compare_spec ra rb) as [E' | E' | E']; cbn [lex].
    + assert (a = b) as -> by lia. by rewrite N.compare_refl.
    + assert (a < b)%N as ->%N.compare_lt_iff by lia. done.
    + assert (b < a)%N as ->%N.compare_gt_iff by lia. done.
  - assert (base * (qa + 1) ≤ base * qb)%N by (apply N.mul_le_mono_l; lia).
    assert (a < b)%N as ->%N.compare_lt_iff by lia. done.
  - assert (base * (qb + 1) ≤ base * qa)%N by (apply N.mul_le_mono_l; lia).
    assert (b < a)%N as ->%N.compare_gt_iff by lia. done.
Qed.

Lemma compare_pad2 a b x y :
  (a < 100)%N → (b < 100)%N →
  String.compare (pad2 a +:+ x) (pad2 b +:+ y)
  = lex (a ?= b)%N (String.compare x y).
Proof.
  intros Ha Hb. unfold pad2. rewrite !app_cons, !app_nil. simpl.
  rewrite !compare_digit.
  rewrite (N.mod_small (a / 10)) by (apply N.Div0.div_lt_upper_bound; lia).
  rewrite (N.mod_small (b / 10)) by (apply N.Div0.div_lt_upper_bound; lia).
  rewrite <- (lex_div_mod 10 a b) by lia.
  by destruct (a / 10 ?= b / 10)%N, (a mod 10 ?= b mod 10)%N.
Qed.

Lemma compare_pad4 a b x y :
  (a < 10000)%N → (b < 10000)%N →
  String.compare (pad4 a +:+ x) (pad4 b +:+ y)
  = lex (a ?= b)%N (String.compare x y).
Proof.
  intros Ha Hb.
  change (pad4 a +:+ x) with (pad2 (a / 100) +:+ pad2 (a mod 100) +:+ x).
  change (pad4 b +:+ y) with (pad2 (b / 100) +:+ pad2 (b mod 100) +:+ y).
  rewrite (compare_pad2 (a / 100) (b / 100))
    by (apply N.Div0.div_lt_upper_bound; lia).
  rewrite (compare_pad2 (a mod 100) (b mod 100)) by (apply N.mod_lt; lia).
  apply lex_div_mod. lia.
Qed.

Lemma compare_strftime_file t1 t2 x y :
  valid_datetime t1 → valid_datetime t2 →
  String.compare (strftime_file t1 +:+ x) (strftime_file t2 +:+ y)
  = lex (second_compare t1 t2) (String.compare x y).
Proof.
  intros (Hy1 & Hm1 & Hd1 & Hh1 & Hn1 & Hs1 & _) (Hy2 & Hm2 & Hd2 & Hh2 & Hn2 & Hs2 & _).
  change (strftime_file t1 +:+ x) with
    (pad4 (year t1) +:+ "-" +:+ pad2 (month t1) +:+ "-" +:+ pad2 (day t1) +:+ "_" +:+
     pad2 (hour t1) +:+ "-" +:+ pad2 (minute t1) +:+ "-" +:+ pad2 (second t1) +:+ x).
  change (strftime_file t2 +:+ y) with
    (pad4 (year t2) +:+ "-" +:+ pad2 (month t2) +:+ "-" +:+ pad2 (day t2) +:+ "_" +:+
     pad2 (hour t2) +:+ "-" +:+ pad2 (minute t2) +:+ "-" +:+ pad2 (second t2) +:+ y).
  rewrite compare_pad4, string_compare_app by done.
  rewrite compare_pad2, string_compare_app by done.
  rewrite compare_pad2, string_compare_app by done.
  rewrite compare_pad2, string_compare_app by done.
  rewrite compare_pad2, string_compare_app by done.
  rewrite compare_pad2 by done.
  unfold second_compare.
  by destruct (year t1 ?= year t2)%N, (month t1 ?= month t2)%N, (day t1 ?= day t2)%N,
       (hour t1 ?= hour t2)%N, (minute t1 ?= minute t2)%N, (second t1 ?= second t2)%N.
Qed.

(** X5: the names of crash reports sort as their timestamps do.  For two
    clock readings with fields in range, comparing the report names as
    strings gives the order of the readings to the second; the same holds
    for the names of missing-license logs. *)
Theorem report_names_sort_chronologically (t1 t2 : datetime) :
  valid_datetime t1 → valid_datetime t2 →
  String.compare (crash_report_name (strftime_file t1))
                 (crash_report_name (strftime_file t2))
  = second_compare t1 t2 ∧
  (∀ d, String.compare (missing_license_log d t1) (missing_license_log d t2)
        = second_compare t1 t2).
Proof.
  intros V1 V2. split.
  - unfold crash_report_name. rewrite string_compare_app.
    rewrite (compare_strftime_file t1 t2 ".log" ".log" V1 V2).
    by destruct (second_compare t1 t2).
  - intros d. unfold missing_license_log, path_join.
    destruct (String.eqb d "."); [|destruct (String.eqb d "/")];
      rewrite ?string_compare_app;
      rewrite (compare_strftime_file t1 t2 ".log" ".log" V1 V2);
      by destruct (second_compare t1 t2).
Qed.

Lemma report_names_sort_chronologically_witness :
  String.ltb (crash_report_name (strftime_file (mkDatetime 2025 3 9 14 5 7 900000)))
             (crash_report_name (strftime_file (mkDatetime 2025 3 9 14 5 8 100)))
  = true.
Proof.
  assert (V1 : valid_datetime (mkDatetime 2025 3 9 14 5 7 900000))
    by (unfold valid_datetime; cbn; lia).
  assert (V2 : valid_datetime (mkDatetime 2025 3 9 14 5 8 100))
    by (unfold valid_datetime; cbn; lia).
  unfold String.ltb.
  rewrite (proj1 (report_names_sort_chronologically _ _ V1 V2)).
  reflexivity.
Defined.

(** ** The loader's report *)

Lemma glob_suffix_not_dir fs d suffix c :
  fs_lookup fs d = Some (File c) → glob_suffix fs d suffix = [].
Proof. intros H. unfold glob_suffix. by rewrite H. Qed.

Lemma load_dataset_no_exit env files st code st' :
  load_dataset env files st ≠ (Raise (SystemExit code), st').
Proof.
  intros H. by apply (exits_load_dataset (fun _ => False) env files st code st').
Qed.

(** X6: the loader calls [sys.exit] from its two checks only, always with
    status 1.  When it does, it has printed its header and exactly one
    [ERROR] line, which names the version directory and tells the two cases
    apart; it has performed no operation and left the store and the clock
    alone.  A regular file standing where the version directory should be
    passes the first check and is reported by the second. *)
Theorem load_training_data_diagnostics (cfg : gmap string path) (env : Env)
    (d : path) (v : string) (st : State) :
  cfg !! "training_data_dir" = Some d →
  let data_dir := d // v in
  (∀ code st',
     load_training_data cfg env v st = (Raise (SystemExit code), st') →
     code = 1%Z ∧ fs st' = fs st ∧ ticks st' = ticks st ∧
     ∃ line,
       trace st' = trace st ++ banner ("Loading Training Data - " +:+ v) ++ [Out line] ∧
       Str.contains data_dir line = true ∧
       if fs_exists (fs st) data_dir
       then glob_suffix (fs st) data_dir ".jsonl" = [] ∧
            line = "[ERROR] No .jsonl files found in " +:+ data_dir
       else line = "[ERROR] Training data not found: " +:+ data_dir) ∧
  (∀ c, fs_lookup (fs st) data_dir = Some (File c) →
     (load_training_data cfg env v st).1 = Raise (SystemExit 1) ∧
     printed ("[ERROR] No .jsonl files found in " +:+ data_dir)
             (trace (load_training_data cfg env v st).2) = true).
Proof.
  intros Hcfg data_dir. split.
  - intros code st' H.
    destruct (fs_exists (fs st) data_dir) eqn:He.
    + destruct (decide (glob_suffix (fs st) data_dir ".jsonl" = [])) as [Hg | Hg].
      * rewrite (load_training_data_no_files cfg env d Hcfg v st He Hg) in H.
        injection H as <- <-. cbn [fs ticks trace]. repeat split.
        eexists. split; [reflexivity|]. split; [|done].
        apply contains_app_r, contains_refl.
      * rewrite (load_training_data_files cfg env d Hcfg v st _ He eq_refl Hg) in H.
        exfalso. revert H. unfold bind at 1.
        destruct (load_dataset env _ _) as [[ds|e] st1] eqn:Hl.
        -- step_m. intros H. discriminate H.
        -- intros [= -> ->]. by apply load_dataset_no_exit in Hl.
    + rewrite (load_training_data_absent cfg env d Hcfg v st He) in H.
      injection H as <- <-. cbn [fs ticks trace]. repeat split.
      eexists. split; [reflexivity|]. split; [|done].
      apply contains_app_r, contains_refl.
  - intros c Hc.
    assert (He : fs_exists (fs st) data_dir = true).
    { unfold fs_exists. rewrite bool_decide_eq_true, Hc. eauto. }
    rewrite (load_training_data_no_files cfg env d Hcfg v st He
               (glob_suffix_not_dir _ _ _ _ Hc)).
    split; [done|]. cbn [snd trace]. unfold printed.
    rewrite !existsb_app. cbn [existsb]. rewrite String.eqb_refl.
    by rewrite !orb_true_r.
Qed.

Lemma load_training_data_diagnostics_witness :
  (load_training_data (OUTPUT_CONFIG ".") env_base "v1" st_base).1
  = Raise (SystemExit 1) ∧
  printed "[ERROR] Training data not found: training data/v1"
          (trace (load_training_data (OUTPUT_CONFIG ".") env_base "v1" st_base).2)
  = true.
Proof.
  destruct (proj1 (load_training_data_diagnostics (OUTPUT_CONFIG ".") env_base
                     "training data" "v1" st_base eq_refl) 1%Z
              (load_training_data (OUTPUT_CONFIG ".") env_base "v1" st_base).2)
    as (_ & _ & _ & line & Ht & _ & Hl).
  - vm_compute. reflexivity.
  - split; [vm_compute; reflexivity|].
    rewrite Ht. vm_compute in Hl. rewrite Hl. vm_compute. reflexivity.
Defined.

(** X7: when the loader returns, what it printed and did is, in order: its
    header, the number of matching files, one line per matching file
    giving the file's name without its directory, the one call of the JSON
    loader on exactly these files in exactly this order, and the number of
    records of the dataset it returns.  The count of files is never 0, and
    the loader has not read the clock. *)
Theorem load_training_data_report (cfg : gmap string path) (env : Env)
    (d : path) (v : string) (st st' : State) (ds : dataset) :
  cfg !! "training_data_dir" = Some d →
  load_training_data cfg env v st = (Ok ds, st') →
  let files := glob_suffix (fs st) (d // v) ".jsonl" in
  0 < length files ∧
  ticks st' = ticks st ∧
  trace st' =
    trace st ++
    banner ("Loading Training Data - " +:+ v) ++
    [Out ("[INFO] Found " +:+ pretty (length files) +:+ " training file(s)")] ++
    map (fun f => Out ("[INFO]   - " +:+ path_name f)) files ++
    [Did (LoadDataset files);
     Out ("[SUCCESS] Loaded " +:+ pretty (length ds) +:+ " training examples")].
Proof.
  intros Hcfg H files.
  destruct (load_training_data_inv cfg env d v st ds st' Hcfg H)
    as (_ & Hne & _ & _ & _ & ->).
  fold files in Hne. split; [destruct files; [done | simpl; lia]|].
  split; [done|]. cbn [trace]. unfold loader_report. fold files.
  by rewrite <- !app_assoc.
Qed.

Lemma load_training_data_report_witness :
  trace (load_training_data (OUTPUT_CONFIG ".") env_base "v1" st_corpus_ba).2
  = banner "Loading Training Data - v1" ++
    [Out "[INFO] Found 2 training file(s)";
     Out "[INFO]   - b.jsonl"; Out "[INFO]   - a.jsonl";
     Did (LoadDataset ["training data/v1/b.jsonl"; "training data/v1/a.jsonl"]);
     Out "[SUCCESS] Loaded 2 training examples"].
Proof.
  destruct (load_training_data_report (OUTPUT_CONFIG ".") env_base
              "training data" "v1" st_corpus_ba
              (load_training_data (OUTPUT_CONFIG ".") env_base "v1" st_corpus_ba).2
              [ex_with_input; ex_plain] eq_refl)
    as (_ & _ & Ht).
  - vm_compute. reflexivity.
  - rewrite Ht. vm_compute. reflexivity.
Defined.

(** ** The license record *)


(** X8: [train_model] takes the source of the license from [sys.argv], not
    from its parameters.  In a process whose argument vector has no second
    entry, or an empty one, the step returns without a license record of
    either kind: after the weights and the tokenizer are saved, the only
    thing it does is to write the descriptor. *)
Theorem train_model_without_argument (cfg : gmap string path) (env : Env)
    (m : model) (tok : tokenizer) (ds : list encoded) (name v : string)
    (st st' : State) (out dm : path) :
  cfg !! "models_dir" = Some dm →
  nth 1 (argv env) "" = "" →
  train_model cfg env m tok ds name v st = (Ok out, st') →
  trace st' = trace st ++ train_report out ++ descriptor_written out ∧
  ∀ q, q ≠ out // "finetuning_config.json" →
       fs_lookup (fs st') q = fs_lookup (fs (packaged st out)) q.
Proof.
  intros Hdm Harg H.
  destruct (train_model_inv cfg env m tok ds name v st out st' dm Hdm H)
    as (_ & st2 & Hlic & Hfs & Htr).
  assert (st2 = packaged st out) as ->.
  { destruct (argv env) as [|a [|p rest]]; [done | done |].
    cbn [nth] in Harg. subst p. exact Hlic. }
  split.
  - rewrite Htr. cbn [trace packaged]. by rewrite <- !app_assoc.
  - intros q Hq. rewrite Hfs. by rewrite !fs_lookup_set_ne.
Qed.

Lemma train_model_without_argument_witness :
  let st' := (train_model (OUTPUT_CONFIG ".") env_no_argument
                (BaseModel "Models/base") byte_tokenizer [] "base" "v1"
                st_licensed).2 in
  trace st' = train_report "Models/base_ft_v1" ++ descriptor_written "Models/base_ft_v1" ∧
  fs_lookup (fs st') "Models/base_ft_v1/LICENSE" = None.
Proof.
  intros st'.
  destruct (train_model_without_argument (OUTPUT_CONFIG ".") env_no_argument
              (BaseModel "Models/base") byte_tokenizer [] "base" "v1"
              st_licensed st' "Models/base_ft_v1" "Models" eq_refl eq_refl)
    as (Ht & Hf).
  - vm_compute. reflexivity.
  - split; [exact Ht|].
    rewrite (Hf "Models/base_ft_v1/LICENSE") by discriminate.
    vm_compute. reflexivity.
Defined.

(** X9: what the license record holds.  When the licensing step returns
    and the source held a [LICENSE], that entry was a file; provided the
    artifact holds no directory of that name, its [LICENSE] now holds the
    same content, and nothing else in the store has changed (no log is
    written).  When the source held none, the log written under the report
    directory names the source model and the output directory as they were
    passed. *)
Theorem license_record_content (cfg : gmap string path) (env : Env) (d : path)
    (p : string) (out : path) (st st' : State) :
  cfg !! "crash_reports_dir" = Some d →
  copy_license_or_log cfg env p out st = (Ok tt, st') →
  let source_license := Path p // "LICENSE" in
  (∀ n, fs_lookup (fs st) source_license = Some n →
     fs_lookup (fs st) (out // "LICENSE") ≠ Some Dir →
     (∃ c, n = File c) ∧
     fs_lookup (fs st') (out // "LICENSE") = Some n ∧
     fs_lookup (fs st') source_license = Some n ∧
     ∀ q, q ≠ out // "LICENSE" → fs_lookup (fs st') q = fs_lookup (fs st) q) ∧
  (fs_lookup (fs st) source_license = None →
     ∃ text,
       fs_lookup (fs st') (missing_license_log d (clock env (ticks st)))
       = Some (File (Text text)) ∧
       Str.contains ("Source Model: " +:+ p +:+ nl) text = true ∧
       Str.contains ("Output Directory: " +:+ out +:+ nl) text = true).
Proof.
  intros Hd H source_license.
  destruct (copy_license_or_log_inv cfg env d Hd p out st st' H)
    as [(He & (c & Hc & Hfs) & _ & _) | (He & Hlog & _ & _ & _)];
    fold source_license in He; unfold fs_exists in He.
  - fold source_license in Hc. split.
    + intros n Hn _. rewrite Hc in Hn. injection Hn as <-.
      split; [by exists c|]. rewrite Hfs.
      split; [apply fs_lookup_set_eq|]. split.
      * destruct (decide (source_license = out // "LICENSE")) as [-> | Hne].
        -- apply fs_lookup_set_eq.
        -- by rewrite fs_lookup_set_ne.
      * intros q Hq. by rewrite fs_lookup_set_ne.
    + intros Hn. by rewrite Hn in Hc.
  - apply bool_decide_eq_false in He. split.
    + intros n Hn _. destruct He. rewrite Hn. eauto.
    + intros _. eexists. split; [exact Hlog|].
      unfold missing_license_text. split; find_line.
Qed.

Lemma license_record_content_witness :
  fs_lookup
    (fs (copy_license_or_log (OUTPUT_CONFIG ".") env_base "Models/base"
           "Models/base_ft_v1" st_licensed).2)
    "Models/base_ft_v1/LICENSE"
  = Some (File (Text "Apache License 2.0")).
Proof.
  destruct (license_record_content (OUTPUT_CONFIG ".") env_base "logs"
              "Models/base" "Models/base_ft_v1" st_licensed
              (copy_license_or_log (OUTPUT_CONFIG ".") env_base "Models/base"
                 "Models/base_ft_v1" st_licensed).2 eq_refl)
    as (Hcopy & _).
  - vm_compute. reflexivity.
  - destruct (Hcopy (File (Text "Apache License 2.0"))) as (_ & H & _).
    + vm_compute. reflexivity.
    + vm_compute. discriminate.
    + exact H.
Defined.

(** ** Reading a formatted text back *)

Lemma split_go_nonempty sep cur s : Str.split_go sep cur s ≠ [].
Proof.
  revert cur. induction s as [|c s IH]; intros cur; simpl; [done|].
  destruct (Ascii.eqb c sep); [done | apply IH].
Qed.

Lemma join_cons sep x l :
  l ≠ [] → Str.join sep (x :: l) = x +:+ sep +:+ Str.join sep l.
Proof. by destruct l. Qed.

(** Joining the fields of a split gives the string back. *)
Lemma join_split_go sep cur s :
  Str.join (String sep "") (Str.split_go sep cur s) = String.rev cur +:+ s.
Proof.
  revert cur. induction s as [|c s IH]; intros cur.
  - simpl. by rewrite string_app_nil_r.
  - cbn [Str.split_go]. destruct (Ascii.eqb_spec c sep) as [-> | Hne].
    + rewrite join_cons by apply split_go_nonempty. by rewrite IH.
    + rewrite IH. unfold String.rev at 1. cbn [String.rev_app].
      rewrite rev_app_append. by rewrite string_app_assoc.
Qed.

Lemma lines_inj a b : Str.lines a = Str.lines b → a = b.
Proof.
  intros H. apply (f_equal (Str.join nl)) in H.
  unfold Str.lines, Str.split, nl in H. by rewrite !join_split_go in H.
Qed.

Lemma lines_blank b : Str.lines (nl +:+ b) = "" :: Str.lines b.
Proof. apply (lines_app "" b). Qed.

Lemma lines_prompt (ex : example) :
  let instruction := py_str (dict_get ex "instruction" (PStr "")) in
  let input_text := dict_get ex "input" (PStr "") in
  let output_text := py_str (dict_get ex "output" (PStr "")) in
  Str.lines (prompt_of ex) =
    if truthy input_text then
      HDR_INSTRUCTION :: (Str.lines instruction ++ [""]) ++
      HDR_INPUT :: (Str.lines (py_str input_text) ++ [""]) ++
      HDR_RESPONSE :: Str.lines output_text
    else
      HDR_INSTRUCTION :: (Str.lines instruction ++ [""]) ++
      HDR_RESPONSE :: Str.lines output_text.
Proof.
  intros instruction input_text output_text. unfold prompt_of.
  fold input_text. destruct (truthy input_text).
  - rewrite !lines_app, !lines_blank, !lines_app. rewrite <- !app_assoc. reflexivity.
  - rewrite !lines_app, !lines_blank, !lines_app. rewrite <- !app_assoc. reflexivity.
Qed.

Lemma omap_nil_inv {A B} (f : A → option B) (l : list A) x :
  omap f l = [] → x ∈ l → f x = None.
Proof.
  induction l as [|y l IH]; intros H Hx; [by apply elem_of_nil in Hx|].
  simpl in H. destruct (f y) eqn:E; [done|].
  apply elem_of_cons in Hx as [-> | Hx]; [done | by apply IH].
Qed.

(** A header line is no line of a header-free field, nor the blank line
    that closes a section. *)
Lemma header_not_in_section (s h : string) (k : header) :
  section_headers s = [] → header_of_line h = Some k → h ∉ Str.lines s ++ [""].
Proof.
  intros Hs Hh [Hin | Hin%list_elem_of_singleton]%elem_of_app.
  - rewrite (omap_nil_inv _ _ _ Hs Hin) in Hh. discriminate Hh.
  - subst h. discriminate Hh.
Qed.

Lemma split_at_first {A} (x : A) (l1 l2 l1' l2' : list A) :
  x ∉ l1 → x ∉ l1' → l1 ++ x :: l2 = l1' ++ x :: l2' → l1 = l1' ∧ l2 = l2'.
Proof.
  revert l1'. induction l1 as [|a l1 IH]; intros [|a' l1'] H1 H2 H; simpl in H.
  - by injection H.
  - injection H as -> _. destruct H2. left.
  - injection H as <- _. destruct H1. left.
  - injection H as -> H. apply not_elem_of_cons in H1 as [_ H1].
    apply not_elem_of_cons in H2 as [_ H2].
    destruct (IH l1' H1 H2 H) as [-> ->]. done.
Qed.

(** X11: the template can be read back.  Two records whose fields carry
    no header line of their own and which [format_instruction] maps to the
    same text agree on what the template shows of them: the rendered
    instruction, the rendered input when it is truthy (and then both have
    one), and the rendered output.  (The rendering is [str()]: values of
    different types that render alike, such as the number 5 and the string
    5, are not told apart.) *)
Theorem format_instruction_unambiguous (ex ex' : example) :
  header_free (dict_get ex "instruction" (PStr "")) →
  header_free (dict_get ex "input" (PStr "")) →
  header_free (dict_get ex "output" (PStr "")) →
  header_free (dict_get ex' "instruction" (PStr "")) →
  header_free (dict_get ex' "input" (PStr "")) →
  header_free (dict_get ex' "output" (PStr "")) →
  format_instruction ex = format_instruction ex' →
  template_fields ex = template_fields ex'.
Proof.
  unfold header_free. intros Hi Hn Ho Hi' Hn' Ho' H.
  apply (f_equal text_of) in H. rewrite !text_of_format_instruction in H.
  assert (Hh := f_equal section_headers H).
  rewrite !section_headers_prompt, Hi, Ho, Hi', Ho' in Hh.
  assert (Hl := f_equal Str.lines H). rewrite !lines_prompt in Hl.
  unfold template_fields.
  destruct (truthy (dict_get ex "input" (PStr ""))),
           (truthy (dict_get ex' "input" (PStr ""))).
  - injection Hl as Hl.
    apply split_at_first in Hl as [H1 Hl];
      [|by eapply header_not_in_section ..].
    apply split_at_first in Hl as [H2 H3];
      [|by eapply header_not_in_section ..].
    apply app_inv_tail, lines_inj in H1. apply app_inv_tail, lines_inj in H2.
    apply lines_inj in H3. by rewrite H1, H2, H3.
  - rewrite Hn in Hh. discriminate Hh.
  - rewrite Hn' in Hh. discriminate Hh.
  - injection Hl as Hl.
    apply split_at_first in Hl as [H1 H3];
      [|by eapply header_not_in_section ..].
    apply app_inv_tail, lines_inj in H1. apply lines_inj in H3.
    by rewrite H1, H3.
Qed.

Lemma format_instruction_unambiguous_witness :
  template_fields ex_plain_tagged = template_fields ex_plain.
Proof.
  apply format_instruction_unambiguous;
    try (vm_compute; reflexivity).
Defined.

(** ** The pad-token fallback *)

Lemma tokenize_function_no_pad tok texts :
  pad_token tok = None →
  ∃ msg, tokenize_function tok texts
         = Raise (Exn ValueError msg "tokenize_function").
Proof.
  intros Hpad. unfold tokenize_function, tokenizer_call. rewrite Hpad. eauto.
Qed.

(** X12: the fallback of [setup_model_and_tokenizer] is not checked.  For
    a tokenizer that defines neither a pad token nor an end-of-sequence
    token, the tokenizer handed on still has no pad token, and
    [prepare_dataset] on any dataset that is not empty raises the
    tokenizer's [ValueError] after printing its header, with the store
    untouched. *)
Theorem pad_fallback_needs_eos (env : Env) (st : State) (ds : dataset)
    (tok0 : tokenizer) :
  pad_token tok0 = None →
  eos_token tok0 = None →
  fault env Tokenize = None →
  ds ≠ [] →
  pad_token (with_pad_fallback tok0) = None ∧
  ∃ msg,
    prepare_dataset env ds (with_pad_fallback tok0) st
    = (Raise (Exn ValueError msg "tokenize_function"),
       mkState (fs st) (ticks st)
         (trace st ++ banner "Preparing Dataset" ++ [Did Tokenize])).
Proof.
  intros Hpad Heos Hf Hds.
  assert (Hnone : pad_token (with_pad_fallback tok0) = None).
  { unfold with_pad_fallback. rewrite Hpad. exact Heos. }
  split; [exact Hnone|].
  destruct (batches_head DEFAULT_BATCH_SIZE (map text_of (map format_instruction ds)))
    as (x & b & bs & Hb).
  { by intros ?%fmap_nil_inv%fmap_nil_inv. }
  { unfold DEFAULT_BATCH_SIZE. lia. }
  destruct (tokenize_function_no_pad (with_pad_fallback tok0) (x :: b) Hnone)
    as [msg Hmsg].
  exists msg. unfold prepare_dataset, perform. rewrite Hf.
  rewrite bool_decide_eq_false_2 by (by intros ?%fmap_nil_inv).
  unfold map_batched. rewrite Hb. cbn [map_batches]. rewrite Hmsg.
  step_m. unfold banner. by rewrite <- !app_assoc.
Qed.

Lemma pad_fallback_needs_eos_witness :
  (prepare_dataset env_base [ex_plain] (with_pad_fallback bare_tokenizer) st_base).1
  = Raise (Exn ValueError
             "Asking to pad but the tokenizer does not have a padding token"
             "tokenize_function").
Proof.
  destruct (pad_fallback_needs_eos env_base st_base [ex_plain] bare_tokenizer
              eq_refl eq_refl eq_refl ltac:(discriminate)) as (_ & msg & H).
  rewrite H. cbn [fst]. vm_compute in H. by injection H as <-.
Defined.

(** ** Failures inside the handler *)

(** X13: the handler of [main] is not itself protected.  When the body of
    [main] has raised an [Exception] and writing the crash report raises in
    turn, that second exception leaves [main] as it is: it is never a
    [SystemExit], the handler's [sys.exit(1)] is not reached, and the line
    [Crash report saved] is not printed.  In particular, when the report
    directory cannot be created, the run ends with the error of
    [os.makedirs], having printed the [Failed] line and written nothing. *)
Theorem crash_report_failure_escapes (cfg : gmap string path) (env : Env)
    (st st1 : State) (c : exn_class) (msg origin : string) :
  main_body cfg env st = (Raise (Exn c msg origin), st1) →
  let st2 := mkState (fs st1) (ticks st1)
               (trace st1 ++ [Out ("[ERROR] Failed: " +:+ msg)]) in
  (∀ e' st3,
     write_crash_report cfg env (Exn c msg origin) (error_context env) st2
     = (Raise e', st3) →
     main cfg env st = (Raise e', st3) ∧ ∀ code, e' ≠ SystemExit code) ∧
  (∀ d f,
     cfg !! "crash_reports_dir" = Some d →
     fault env (Makedirs d) = Some f →
     main cfg env st = (Raise (exn_of_failure f "os.makedirs"), st2)).
Proof.
  intros Hb st2.
  assert (Hmain : main cfg env st
                  = (write_crash_report cfg env (Exn c msg origin) (error_context env) ;;;
                     sys_exit 1)%py st2).
  { unfold main, try_except. rewrite Hb. cbn [main_handler exn_str]. by step_m. }
  split.
  - intros e' st3 Hw. split.
    + rewrite Hmain. unfold bind. by rewrite Hw.
    + intros code ->.
      by apply (exits_write_crash_report (fun _ => False) _ _ _ _ _ _ _ Hw).
  - intros d f Hd Hf. rewrite Hmain.
    unfold write_crash_report, subscript. rewrite Hd. step_m. rewrite Hf. by step_m.
Qed.

Lemma crash_report_failure_escapes_witness :
  let env := with_fault env_base fail_at_report_dir in
  (main (OUTPUT_CONFIG ".") env st_base).1
  = Raise (Exn OSError "Permission denied" "os.makedirs") ∧
  fs_lookup (fs (main (OUTPUT_CONFIG ".") env st_base).2) "logs" = None.
Proof.
  intros env.
  destruct (crash_report_failure_escapes (OUTPUT_CONFIG ".") env st_base
              (main_body (OUTPUT_CONFIG ".") env st_base).2
              KeyError "'documentation_dir'" "check_system") as (_ & H).
  - vm_compute. reflexivity.
  - rewrite (H "logs" (Fails OSError "Permission denied") eq_refl eq_refl).
    split; vm_compute; reflexivity.
Defined.

(** ** Model setup *)

(** X14: [setup_model_and_tokenizer] returns exactly when none of its
    three library calls fails.  It then returns the base model wrapped
    with the adapter settings of [FINETUNING_CONFIG] (rank 16, alpha 32,
    dropout 0.05, the four attention projections) and the tokenizer after
    the pad-token fallback; the report of trainable parameters is printed
    and has no influence on the result.  However it ends, the store and
    the clock are as before. *)
Theorem setup_model_and_tokenizer_outcome (env : Env) (model_path : string)
    (st : State) :
  let outcome := setup_model_and_tokenizer env model_path st in
  (Forall (fun o => fault env o = None) (setup_calls model_path) ↔
   ∃ r, outcome.1 = Ok r) ∧
  (∀ r, outcome.1 = Ok r →
     r = (PeftModel model_path 16 32 "0.05" ["q_proj"; "k_proj"; "v_proj"; "o_proj"],
          with_pad_fallback (pretrained_tokenizer env)) ∧
     trace outcome.2 =
       trace st ++ banner "Loading Model and Tokenizer" ++
       [Did (TokenizerFromPretrained model_path);
        Did (ModelFromPretrained model_path);
        Out ("[SUCCESS] Model loaded: " +:+ model_path);
        Did GetPeftModel;
        Out (trainable_parameters env);
        Out "[SUCCESS] LoRA adapters configured"]) ∧
  fs outcome.2 = fs st ∧ ticks outcome.2 = ticks st.
Proof.
  intros outcome. subst outcome. unfold setup_model_and_tokenizer, setup_calls.
  step_m.
  destruct (fault env (TokenizerFromPretrained model_path)) eqn:E1; step_m.
  { split; [split|split; [|done]].
    - intros H. inversion H as [|? ? H1 _]; subst. by rewrite E1 in H1.
    - by intros [r Hr].
    - by intros r Hr. }
  destruct (fault env (ModelFromPretrained model_path)) eqn:E2; step_m.
  { split; [split|split; [|done]].
    - intros H. inversion H as [|? ? _ H']; subst.
      inversion H' as [|? ? H2 _]; subst. by rewrite E2 in H2.
    - by intros [r Hr].
    - by intros r Hr. }
  destruct (fault env GetPeftModel) eqn:E3; step_m.
  { split; [split|split; [|done]].
    - intros H. inversion H as [|? ? _ H']; subst.
      inversion H' as [|? ? _ H'']; subst.
      inversion H'' as [|? ? H3 _]; subst. by rewrite E3 in H3.
    - by intros [r Hr].
    - by intros r Hr. }
  split; [split|split; [|done]].
  - intros _. eauto.
  - intros _. by repeat constructor.
  - intros r [= <-]. split; [reflexivity|].
    cbn [snd trace]. unfold banner. by rewrite <- !app_assoc.
Qed.

(** ** The configuration snapshot of a crash report *)

(** X15: when [write_crash_report] returns, the path it returns holds the
    report, whose configuration part is made of five settings: the method
    and the version of [FINETUNING_CONFIG], the operator's name and
    organization from the environment (the [Unknown] defaults when a
    variable is not set) and whether CUDA is available.  The report also
    holds the type and the message of the error, and a timestamp that is
    read from the clock after the one that names the file. *)
Theorem crash_report_snapshot (cfg : gmap string path) (env : Env) (e : exn)
    (ctx : string) (st st' : State) (p : path) :
  write_crash_report cfg env e ctx st = (Ok p, st') →
  ∃ d text,
    cfg !! "crash_reports_dir" = Some d ∧
    p = d // crash_report_name (strftime_file (clock env (ticks st))) ∧
    fs_lookup (fs st') p = Some (File (Text text)) ∧
    Str.contains ("Timestamp: " +:+ strftime_human (clock env (S (ticks st))) +:+ nl)
                 text = true ∧
    Str.contains ("  Method: " +:+ method FINETUNING_CONFIG +:+ nl) text = true ∧
    Str.contains ("  Version: " +:+ version FINETUNING_CONFIG +:+ nl) text = true ∧
    Str.contains ("  User: " +:+
                  dict_get (environ env) "DEVELOPER_NAME" "Unknown Developer" +:+ nl)
                 text = true ∧
    Str.contains ("  Organization: " +:+
                  dict_get (environ env) "ORGANIZATION" "Unknown Organization" +:+ nl)
                 text = true ∧
    Str.contains ("  CUDA Available: " +:+ py_bool (cuda_is_available env) +:+ nl)
                 text = true ∧
    Str.contains ("Error:" +:+ nl +:+ exn_type_name e +:+ ": " +:+ exn_str e +:+ nl)
                 text = true.
Proof.
  unfold write_crash_report, subscript.
  destruct (cfg !! "crash_reports_dir") as [d|] eqn:Hd; [|absurd_run].
  step_m. destruct (fault env (Makedirs d)); [absurd_run|]. step_m.
  set (report := d // crash_report_name (strftime_file (clock env (ticks st)))).
  destruct (fault env (OpenW report)); [absurd_run|]. step_m.
  intros [= <- <-]. cbn [fs]. exists d. eexists.
  split; [done|]. split; [done|]. split; [apply fs_lookup_set_eq|].
  unfold crash_report_text, METADATA_CONFIG. cbn [finetuned_by organization].
  repeat split; find_line.
Qed.

Lemma crash_report_snapshot_witness :
  ∃ text,
    fs_lookup (fs (write_crash_report (OUTPUT_CONFIG ".") env_base
                     documentation_key_error "Model: Models/base" st_base).2)
      "logs/crash_report_finetune_model_2025-03-09_14-05-07.log"
    = Some (File (Text text)) ∧
    Str.contains ("  User: Unknown Developer" +:+ nl) text = true ∧
    Str.contains ("Error:" +:+ nl +:+ "KeyError: 'documentation_dir'" +:+ nl) text = true.
Proof.
  destruct (crash_report_snapshot (OUTPUT_CONFIG ".") env_base
              documentation_key_error "Model: Models/base" st_base
              (write_crash_report (OUTPUT_CONFIG ".") env_base
                 documentation_key_error "Model: Models/base" st_base).2
              "logs/crash_report_finetune_model_2025-03-09_14-05-07.log")
    as (d & text & _ & _ & Hf & _ & _ & _ & Hu & _ & _ & He).
  - vm_compute. reflexivity.
  - exists text. split; [exact Hf|]. split; [exact Hu | exact He].
Defined.
